(** * katana-sdk-node: the run-time caller and the action schema

    A shallow embedding of [sdk/zmq-runtime-caller.js] (class
    [ZMQRuntimeCaller]) and of the action schema class that follows it in the
    same source unit (class [ActionSchema]).

    JavaScript data is embedded as a first-order [value]; what the engine's
    built-in objects answer is a parameter, an [Engine]; a method that can
    throw returns a [result]; the event loop of the caller (one timer, one
    socket listener per call) is a step function on a [World]. *)

From Stdlib Require Import String Ascii List ZArith Bool Lia.
From Stdlib Require Import Decimal DecimalString DecimalNat DecimalFacts.
Import ListNotations.
Open Scope string_scope.

Set Warnings "-register-all".

(** ** JavaScript values *)

(** Numbers are the integers among the JavaScript numbers; this is all the
    modelled code stores (a timeout in milliseconds, array lengths).  An
    object is its list of own enumerable properties in enumeration order,
    without duplicate keys.  [VFun] is a built-in object of the engine, named
    by the engine: a function or a prototype object found on the prototype
    chain ([Array.prototype.filter], [Object.prototype]).  The data handled
    here is decoded from a service definition and holds no functions of its
    own: a built-in reaches the code only as the answer to a property read,
    and is kept in a field of a schema, never as an own property of an object
    or an element of an array. *)
Inductive value : Type :=
| VUndefined
| VNull
| VBool (b : bool)
| VNum (n : Z)
| VStr (s : string)
| VArr (elems : list value)
| VObj (props : list (string * value))
| VFun (name : string).

Definition obj : Type := list (string * value).

(** Exceptions: a [TypeError] raised by the engine (its message is the
    engine's own and is not modelled) or an [Error] built by the code. *)
Inductive exn : Type :=
| TypeError
| Error (message : string).

Inductive result (A : Type) : Type :=
| Ok (a : A)
| Throw (e : exn).

Arguments Ok {A} a.
Arguments Throw {A} e.

Definition bind {A B : Type} (r : result A) (k : A -> result B) : result B :=
  match r with
  | Ok a => k a
  | Throw e => Throw e
  end.

Notation "x <- r ;; k" := (bind r (fun x => k))
  (at level 61, r at next level, right associativity).

Fixpoint mapM {A B : Type} (f : A -> result B) (l : list A) : result (list B) :=
  match l with
  | [] => Ok []
  | a :: l' => b <- f a ;; bs <- mapM f l' ;; Ok (b :: bs)
  end.

(** [array.forEach(f)]: the value [f] returns is dropped, an exception leaves
    the loop. *)
Fixpoint forEach {A B : Type} (f : A -> result B) (l : list A) : result unit :=
  match l with
  | [] => Ok tt
  | a :: l' => _ <- f a ;; forEach f l'
  end.

(** ** Strings *)

Definition dquote : string := String "034"%char EmptyString.

Definition string_of_nat (n : nat) : string :=
  NilEmpty.string_of_uint (Nat.to_uint n).

Definition string_of_Z (z : Z) : string :=
  NilZero.string_of_int (Z.to_int z).

(** An array index is a property key that is the canonical decimal form of a
    natural number: ["0"], ["17"], but not ["01"] or ["+1"]. *)
Definition array_index (k : string) : option nat :=
  match NilZero.uint_of_string k with
  | Some u =>
      let n := Nat.of_uint u in
      if String.eqb (string_of_nat n) k then Some n else None
  | None => None
  end.

Fixpoint join (sep : string) (l : list string) : string :=
  match l with
  | [] => EmptyString
  | [s] => s
  | s :: l' => s ++ sep ++ join sep l'
  end.

Fixpoint chars (s : string) : list string :=
  match s with
  | EmptyString => []
  | String c s' => String c EmptyString :: chars s'
  end.

(** [split_from sep s skip cur]: [cur] is the segment being read, [skip] the
    number of characters of [s] that belong to a separator already matched. *)
Fixpoint split_from (sep s : string) (skip : nat) (cur : string) : list string :=
  match s with
  | EmptyString => [cur]
  | String c s' =>
      match skip with
      | S k => split_from sep s' k cur
      | O =>
          if String.prefix sep s
          then cur :: split_from sep s' (String.length sep - 1) EmptyString
          else split_from sep s' 0 (cur ++ String c EmptyString)
      end
  end.

(** [s.split(sep)] for a string separator: the empty separator cuts between
    all characters, any other cuts at its occurrences from the left. *)
Definition split (sep s : string) : list string :=
  match sep with
  | EmptyString => chars s
  | _ => split_from sep s 0 EmptyString
  end.

(** ** Property access *)

Fixpoint lookup (k : string) (o : obj) : option value :=
  match o with
  | [] => None
  | (k', v) :: o' => if String.eqb k k' then Some v else lookup k o'
  end.

(** [o[k] = v] on a plain object: an existing key keeps its place. *)
Fixpoint put (k : string) (v : value) (o : obj) : obj :=
  match o with
  | [] => [(k, v)]
  | (k', v') :: o' =>
      if String.eqb k k' then (k, v) :: o' else (k', v') :: put k v o'
  end.

(** An object literal with computed keys [{[k1]: v1, [k2]: v2, ...}]. *)
Definition literal (kvs : list (string * value)) : value :=
  VObj (fold_left (fun o kv => put (fst kv) (snd kv) o) kvs []).

Definition mem (k : string) (l : list string) : bool :=
  existsb (String.eqb k) l.

(** ** The engine *)

(** What a property is read from when it is not an own data property of the
    value: a plain object, an array, a string, a number, a boolean (each
    through its prototype chain) or a built-in object. *)
Inductive owner : Type :=
| OfObject
| OfArray
| OfString
| OfNumber
| OfBoolean
| OfBuiltin (name : string).

(** The built-in objects differ between editions of the language and
    between engines, so their answers are a parameter.
    - [member r k]: the property [k] found for an owner [r] beyond its own
      data properties ([undefined] when there is none, the prototype object
      for ["__proto__"]); [None] when reading it throws a TypeError.
    - [behaves_as h]: the array or string a built-in object itself is
      ([Array.prototype] is an empty array, [String.prototype] an empty
      string), for the methods of arrays and strings called on it.
    - [own_keys h]: [Object.keys] of a built-in object.
    - [show v]: ToString of a built-in object, and of a number beyond the
      safe integers; [None] when the conversion throws a TypeError. *)
Record Engine : Type := {
  member : owner -> string -> option value;
  behaves_as : string -> option value;
  own_keys : string -> list string;
  show : value -> option string
}.

Definition engine_answer {A : Type} (a : option A) : result A :=
  match a with
  | Some x => Ok x
  | None => Throw TypeError
  end.

(** [v[k]]: reading a property of [undefined] or [null] throws; an own
    property (a key of an object, an index within an array or a string,
    their [length]) wins; anything else is the engine's answer. *)
Definition get (e : Engine) (v : value) (k : string) : result value :=
  match v with
  | VUndefined | VNull => Throw TypeError
  | VObj o =>
      match lookup k o with
      | Some x => Ok x
      | None => engine_answer (member e OfObject k)
      end
  | VArr l =>
      match array_index k with
      | Some i =>
          match nth_error l i with
          | Some x => Ok x
          | None => engine_answer (member e OfArray k)
          end
      | None =>
          if String.eqb k "length" then Ok (VNum (Z.of_nat (List.length l)))
          else engine_answer (member e OfArray k)
      end
  | VStr s =>
      match array_index k with
      | Some i =>
          match String.get i s with
          | Some c => Ok (VStr (String c EmptyString))
          | None => engine_answer (member e OfString k)
          end
      | None =>
          if String.eqb k "length" then Ok (VNum (Z.of_nat (String.length s)))
          else engine_answer (member e OfString k)
      end
  | VNum _ => engine_answer (member e OfNumber k)
  | VBool _ => engine_answer (member e OfBoolean k)
  | VFun h => engine_answer (member e (OfBuiltin h) k)
  end.

(** [typeof v === typeof undefined]. *)
Definition is_undefined (v : value) : bool :=
  match v with
  | VUndefined => true
  | _ => false
  end.

(** ToBoolean. *)
Definition truthy (v : value) : bool :=
  match v with
  | VUndefined | VNull => false
  | VBool b => b
  | VNum n => negb (Z.eqb n 0)
  | VStr s => negb (String.eqb s EmptyString)
  | VArr _ | VObj _ | VFun _ => true
  end.

(** [s === v] for a string [s]: strict equality never converts. *)
Definition is_string (s : string) (v : value) : bool :=
  match v with
  | VStr s' => String.eqb s s'
  | _ => false
  end.

(** The integers every engine prints digit by digit. *)
Definition safe_integer (n : Z) : bool :=
  (Z.abs n <? 9007199254740992)%Z.

(** ToString, as a template literal or a string method applies it.  An
    array joins the strings of its elements; an object without a [toString]
    of its own is ["[object Object]"], one with a [toString] that is data has
    nothing to call and the conversion throws. *)
Fixpoint to_string (e : Engine) (v : value) : result string :=
  match v with
  | VUndefined => Ok "undefined"
  | VNull => Ok "null"
  | VBool true => Ok "true"
  | VBool false => Ok "false"
  | VNum n =>
      if safe_integer n then Ok (string_of_Z n) else engine_answer (show e v)
  | VStr s => Ok s
  | VArr l =>
      parts <-
        (fix each (l : list value) : result (list string) :=
           match l with
           | [] => Ok []
           | x :: l' =>
               s <- match x with
                    | VUndefined | VNull => Ok EmptyString
                    | _ => to_string e x
                    end ;;
               rest <- each l' ;;
               Ok (s :: rest)
           end) l ;;
      Ok (join "," parts)
  | VObj o =>
      match lookup "toString" o with
      | None => Ok "[object Object]"
      | Some _ => Throw TypeError
      end
  | VFun _ => engine_answer (show e v)
  end.

(** [Object.keys(v)]. *)
Definition keys (e : Engine) (v : value) : result (list string) :=
  match v with
  | VUndefined | VNull => Throw TypeError
  | VObj o => Ok (map fst o)
  | VArr l => Ok (map string_of_nat (seq 0 (List.length l)))
  | VStr s => Ok (map string_of_nat (seq 0 (String.length s)))
  | VBool _ | VNum _ => Ok []
  | VFun h => Ok (own_keys e h)
  end.

(** A parameter with a default value: the default replaces [undefined] and
    nothing else. *)
Definition default_param (d v : value) : value :=
  match v with
  | VUndefined => d
  | _ => v
  end.

(** ** The collaborators that are required but not part of this unit *)

(** The key table [./mappings]: the code reads the keys as [m.timeout],
    [m.calls], ... and never spells them out, so they are kept abstract. *)
Record Mappings : Type := {
  m_meta : string;
  m_service : string;
  m_command : string;
  m_name : string;
  m_arguments : string;
  m_action : string;
  m_callee : string;
  m_transport : string;
  m_params : string;
  m_files : string;
  m_fallback : string;
  m_entity_path : string;
  m_path_delimiter : string;
  m_primary_key : string;
  m_collection : string;
  m_entity : string;
  m_http : string;
  m_return : string;
  m_timeout : string;
  m_is_deprecated : string;
  m_relations : string;
  m_tags : string;
  m_calls : string;
  m_deferred_calls : string;
  m_remote_calls : string
}.

(** The sub-schema classes ([./param-schema], [./file-schema],
    [./action-entity], ...) are required but not part of this unit: the
    record holds what the action schema calls on them.  Parsing is permissive
    by design (an absent fragment takes its default), so the parsers are
    total; the two accessors of the entity and [getType] may throw. *)
Record SubSchemas : Type := {
  TransportFallbackSchema_fromMapping : value -> value;
  HttpActionSchema_fromMapping : value -> value;
  ReturnValueSchema_fromMapping : value -> value;
  ReturnValueSchema_getType : value -> result value;
  ActionRelationSchema_parseMapping : value -> nat -> list value -> value;
  ParamSchema_fromMapping : string -> value -> value;
  FileSchema_fromMapping : string -> value -> value;
  ActionEntity_new : value -> value -> value -> value -> value -> value;
  ActionEntity_getEntityPath : value -> result value;
  ActionEntity_getPathDelimiter : value -> result value
}.

(** Modelled from the spec: [Schema.readProperty] of [./schema] is missing
    from the sources.  "Every optional field not present takes its documented
    default": the property when the mapping has it, the default otherwise. *)
Definition readProperty (e : Engine) (mapping : value) (key : string)
  (default : value) : result value :=
  v <- get e mapping key ;;
  Ok (if is_undefined v then default else v).

(** [recv.method(...)] where [recv] is [null] or [undefined]. *)
Definition receiver (recv : value) : result value :=
  match recv with
  | VUndefined | VNull => Throw TypeError
  | _ => Ok recv
  end.

(** [recv.map(f)], [recv.filter(f)], [recv.forEach(f)]: only an array has
    these members, be it data or the built-in object that is an array;
    calling a missing member throws. *)
Definition as_array (e : Engine) (recv : value) : result (list value) :=
  match recv with
  | VArr l => Ok l
  | VFun h =>
      match behaves_as e h with
      | Some (VArr l) => Ok l
      | _ => Throw TypeError
      end
  | _ => Throw TypeError
  end.

(** [array.map(f)], [f] being called with the element, its index and the
    array. *)
Definition map_indexed {B : Type} (f : value -> nat -> list value -> B)
  (l : list value) : list B :=
  map (fun ix => f (snd ix) (fst ix) l) (combine (seq 0 (List.length l)) l).

(** ** ActionSchema *)

Module ActionSchema.

(** An instance is the object the constructor fills: reading a field the
    constructor did not assign gives [undefined].  The parent constructor
    [Schema()] is called without arguments and is given nothing to store. *)
Definition field (this : obj) (k : string) : value :=
  match lookup k this with
  | Some v => v
  | None => VUndefined
  end.

Definition constructor
  (name timeout actionEntity transportFallbackSchema httpActionSchema
   deprecated params files relations tags calls deferredCalls remoteCalls
   returnValueSchema : value) : obj :=
  [ ("_name", name);
    ("_timeout", default_param (VNum 1000) timeout);
    ("_entity", actionEntity);
    ("_transportFallback", transportFallbackSchema);
    ("_httpSchema", httpActionSchema);
    ("_deprecated", deprecated);
    ("_params", default_param (VObj []) params);
    ("_files", default_param (VObj []) files);
    ("_relations", default_param (VArr []) relations);
    ("_tags", default_param (VArr []) tags);
    ("_calls", default_param (VArr []) calls);
    ("_deferredCalls", default_param (VArr []) deferredCalls);
    ("_remoteCalls", default_param (VArr []) remoteCalls);
    ("_returnValue", default_param VNull returnValueSchema) ].

Section WithCollaborators.

Variable e : Engine.
Variable m : Mappings.
Variable sub : SubSchemas.

Definition fromMapping (name : string) (mapping : value) : result obj :=
  fallback <- get e mapping (m_fallback m) ;;
  let transportFallbackSchema := TransportFallbackSchema_fromMapping sub fallback in
  entity_path <- readProperty e mapping (m_entity_path m) (VStr EmptyString) ;;
  path_delimiter <- readProperty e mapping (m_path_delimiter m) (VStr "/") ;;
  primary_key <- readProperty e mapping (m_primary_key m) (VStr "id") ;;
  collection <- readProperty e mapping (m_collection m) (VBool false) ;;
  entity <- readProperty e mapping (m_entity m) (VObj []) ;;
  let actionEntity :=
    ActionEntity_new sub entity_path path_delimiter primary_key collection entity in
  http <- get e mapping (m_http m) ;;
  let httpActionSchema := HttpActionSchema_fromMapping sub http in
  ret <- get e mapping (m_return m) ;;
  let returnValueSchema := ReturnValueSchema_fromMapping sub ret in
  paramsObject <- readProperty e mapping (m_params m) (VObj []) ;;
  paramNames <- keys e paramsObject ;;
  paramsArray <-
    mapM (fun paramName =>
            p <- get e paramsObject paramName ;;
            Ok (ParamSchema_fromMapping sub paramName p)) paramNames ;;
  filesMappingArray <- readProperty e mapping (m_files m) (VArr []) ;;
  fileNames <- keys e filesMappingArray ;;
  filesArray <-
    mapM (fun fileName =>
            f <- get e filesMappingArray fileName ;;
            Ok (FileSchema_fromMapping sub fileName f)) fileNames ;;
  timeout <- readProperty e mapping (m_timeout m) (VNum 1000) ;;
  deprecated <- readProperty e mapping (m_is_deprecated m) (VBool false) ;;
  relationsMapping <- readProperty e mapping (m_relations m) (VArr []) ;;
  relationsList <- as_array e relationsMapping ;;
  let relations := map_indexed (ActionRelationSchema_parseMapping sub) relationsList in
  tags <- readProperty e mapping (m_tags m) (VArr []) ;;
  calls <- readProperty e mapping (m_calls m) (VBool false) ;;
  deferredCalls <- readProperty e mapping (m_deferred_calls m) (VBool false) ;;
  remoteCalls <- readProperty e mapping (m_remote_calls m) (VBool false) ;;
  Ok (constructor (VStr name) timeout actionEntity transportFallbackSchema
        httpActionSchema deprecated (VArr paramsArray) (VArr filesArray)
        (VArr relations) tags calls deferredCalls remoteCalls
        returnValueSchema).

End WithCollaborators.

Section WithSubSchemas.

Variable sub : SubSchemas.

Definition getEntityPath (this : obj) : result value :=
  e <- receiver (field this "_entity") ;;
  ActionEntity_getEntityPath sub e.

Definition getPathDelimiter (this : obj) : result value :=
  e <- receiver (field this "_entity") ;;
  ActionEntity_getPathDelimiter sub e.

Definition getReturnType (this : obj) : result value :=
  r <- receiver (field this "_returnValue") ;;
  ReturnValueSchema_getType sub r.

End WithSubSchemas.

Definition isDeprecated (this : obj) : value := field this "_deprecated".

Definition getName (this : obj) : value := field this "_name".

Definition getTimeout (this : obj) : value := field this "_timeout".

(** [new Error(`Cannot resolve entity for action: ${this.getName()}`)]: the
    template converts the name to a string, which can throw. *)
Definition resolution_error (e : Engine) (this : obj) : result exn :=
  name <- to_string e (getName this) ;;
  Ok (Error ("Cannot resolve entity for action: " ++ name)).

(** [this._entityPath.split(this._pathDelimiter)]: [split] is a member of
    strings only, data or the built-in object that is a string; an
    [undefined] separator leaves the string whole, any other is converted
    to a string. *)
Definition split_path (e : Engine) (path delimiter : value)
  : result (list string) :=
  s <- match path with
       | VStr s => Ok s
       | VFun h =>
           match behaves_as e h with
           | Some (VStr s) => Ok s
           | _ => Throw TypeError
           end
       | _ => Throw TypeError
       end ;;
  match delimiter with
  | VUndefined => Ok [s]
  | _ => sep <- to_string e delimiter ;; Ok (split sep s)
  end.

(** The loop body of [resolveEntity]: one step down, [data] being the
    variable the closure assigns. *)
Definition descend (e : Engine) (this : obj) (data : value) (key : string)
  : result value :=
  v <- get e data key ;;
  if is_undefined v
  then (err <- resolution_error e this ;; Throw err)
  else Ok v.

Fixpoint descend_all (e : Engine) (this : obj) (data : value)
  (keys : list string) : result value :=
  match keys with
  | [] => Ok data
  | key :: keys' => d <- descend e this data key ;; descend_all e this d keys'
  end.

Definition resolveEntity (e : Engine) (this : obj) (data : value)
  : result value :=
  if negb (truthy (field this "_entityPath")) then Ok data
  else
    keys <- split_path e (field this "_entityPath")
              (field this "_pathDelimiter") ;;
    descend_all e this data keys.

Definition hasReturn (this : obj) : bool :=
  match field this "_returnValue" with
  | VNull => false
  | _ => true
  end.

(** A query argument that may be left out: [None] is the default [null]. *)
Definition supplied (filter : option string) : bool :=
  match filter with
  | Some s => truthy (VStr s)
  | None => false
  end.

Definition differs (filter : option string) (v : value) : bool :=
  match filter with
  | Some s => negb (is_string s v)
  | None => true
  end.

Fixpoint filterM (f : value -> result value) (l : list value)
  : result (list value) :=
  match l with
  | [] => Ok []
  | x :: l' =>
      keep <- f x ;;
      rest <- filterM f l' ;;
      Ok (if truthy keep then x :: rest else rest)
  end.

(** The callback [_hasCalls] filters with: it returns [false] at a mismatch
    and reaches its end, returning [undefined], otherwise. *)
Definition call_matches (e : Engine) (name : string)
  (version action : option string) (call : value) : result value :=
  serviceName <- get e call "serviceName" ;;
  serviceVersion <- get e call "serviceVersion" ;;
  actionName <- get e call "actionName" ;;
  if negb (is_string name serviceName) then Ok (VBool false)
  else if supplied version && differs version serviceVersion then Ok (VBool false)
  else if supplied action && differs action actionName then Ok (VBool false)
  else Ok VUndefined.

Definition _hasCalls (e : Engine) (source : value) (name : string)
  (version action : option string) : result bool :=
  calls <- as_array e source ;;
  matching <- filterM (call_matches e name version action) calls ;;
  Ok (0 <? List.length matching)%nat.

Definition hasCall (e : Engine) (this : obj) (name : string)
  (version action : option string) : result bool :=
  _hasCalls e (field this "_calls") name version action.

Definition hasDeferCall (e : Engine) (this : obj) (name : string)
  (version action : option string) : result bool :=
  _hasCalls e (field this "_deferredCalls") name version action.

Definition remote_call_matches (e : Engine) (address : string)
  (name version action : option string) (call : value) : result value :=
  publicAddress <- get e call "publicAddress" ;;
  serviceName <- get e call "serviceName" ;;
  serviceVersion <- get e call "serviceVersion" ;;
  actionName <- get e call "actionName" ;;
  if negb (is_string address publicAddress) then Ok (VBool false)
  else if supplied name && differs name serviceName then Ok (VBool false)
  else if supplied version && differs version serviceVersion then Ok (VBool false)
  else if supplied action && differs action actionName then Ok (VBool false)
  else Ok VUndefined.

Definition hasRemoteCall (e : Engine) (this : obj) (address : string)
  (name version action : option string) : result bool :=
  calls <- as_array e (field this "_remoteCalls") ;;
  matching <-
    filterM (remote_call_matches e address name version action) calls ;;
  Ok (0 <? List.length matching)%nat.

Definition getParams (e : Engine) (this : obj) : result (list value) :=
  params <- as_array e (field this "_params") ;;
  mapM (fun param => get e param "_name") params.

Definition hasParam (e : Engine) (this : obj) (name : string) : result bool :=
  names <- getParams e this ;;
  Ok (existsb (is_string name) names).

(** The callback of the [forEach] in [getParamSchema]. *)
Definition pick_param (e : Engine) (name : string) (param : value)
  : result value :=
  n <- get e param "_name" ;;
  if is_string name n then Ok param else Ok VUndefined.

Definition getParamSchema (e : Engine) (this : obj) (name : string)
  : result value :=
  declared <- hasParam e this name ;;
  if negb declared
  then Throw (Error ("Cannot resolve schema for parameter: " ++ name))
  else
    params <- as_array e (field this "_params") ;;
    _ <- forEach (pick_param e name) params ;;
    Ok VNull.

Definition getFiles (e : Engine) (this : obj) : result (list string) :=
  keys e (field this "_files").

Definition hasFile (e : Engine) (this : obj) (name : string) : result bool :=
  v <- get e (field this "_files") name ;;
  Ok (negb (is_undefined v)).

Definition getFileSchema (e : Engine) (this : obj) (name : string)
  : result value :=
  declared <- hasFile e this name ;;
  if negb declared
  then Throw (Error ("Cannot resolve schema for file parameter: " ++ name))
  else get e (field this "_files") name.

(** [recv.includes(x)] for a string [x]: membership in an array, the
    substring test on a string, data or built-in object; no other value has
    the member. *)
Definition includes (e : Engine) (recv : value) (x : string) : result bool :=
  let of_data (d : value) : result bool :=
    match d with
    | VArr l => Ok (existsb (is_string x) l)
    | VStr s =>
        Ok (match String.index 0 x s with
            | Some _ => true
            | None => false
            end)
    | _ => Throw TypeError
    end in
  match recv with
  | VFun h =>
      match behaves_as e h with
      | Some d => of_data d
      | None => Throw TypeError
      end
  | _ => of_data recv
  end.

Definition hasTag (e : Engine) (this : obj) (name : string) : result bool :=
  includes e (field this "_tags") name.

Definition getTags (this : obj) : value := field this "_tags".

Definition getRelations (this : obj) : value := field this "_relations".

Definition getCalls (this : obj) : value := field this "_calls".

Definition getDeferCalls (this : obj) : value := field this "_deferredCalls".

Definition getRemoteCalls (this : obj) : value := field this "_remoteCalls".

Definition getHttpSchema (this : obj) : value := field this "_httpSchema".

End ActionSchema.

(** ** ZMQRuntimeCaller *)

Module ZMQRuntimeCaller.

(** The codec [msgpack]: [pack] gives the bytes of a value, [unpack] reads
    them back or throws. *)
Record Codec : Type := {
  pack : value -> list Byte.byte;
  unpack : list Byte.byte -> result value
}.

(** The calling [Action], as far as the caller uses it: the object itself,
    which goes into the envelope, and [action.getTransport()._getAsObject()].
    Its entry point [_processRuntimeResponse] is recorded in the world. *)
Record Action : Type := {
  action_self : value;
  action_transport : value
}.

Inductive frame : Type :=
| FString (s : string)
| FBuffer (b : list Byte.byte).

(** A [zeromq] socket made by [call]: its listener for ['message'] is
    [_parseReply] bound to the caller.  A socket whose binding failed is
    bound to nothing. *)
Record Socket : Type := {
  socket_type : string;
  socket_bound : list string;
  socket_refd : bool;
  socket_sent : list (list frame)
}.

(** An armed timer with what its callback closes over. *)
Record Timer : Type := {
  timer_handle : nat;
  timer_delay : Z;
  timer_socket : nat;
  timer_service : string;
  timer_version : string;
  timer_targetAction : string
}.

(** One caller instance ([_action], [_timeout]) and the event loop around it:
    the armed timers, the sockets, the payloads handed to an action's
    [_processRuntimeResponse], and the exceptions no frame caught.  An
    exception that leaves an event-loop callback ends the process unless the
    host listens for ['uncaughtException'].  [refuses] is the broker's
    answer for an address it cannot bind for a reason outside the caller (a
    malformed endpoint, an address held by another process): the message of
    the error it throws. *)
Record World : Type := {
  _action : option Action;
  _timeout : option nat;
  timers : list Timer;
  next_handle : nat;
  sockets : list Socket;
  processed : list (Action * value);
  uncaught : list exn;
  handles_uncaught : bool;
  alive : bool;
  refuses : string -> option string
}.

(** A process that has made no call yet, with a broker that takes every
    address. *)
Definition boot (handles_uncaught : bool) : World :=
  {| _action := None; _timeout := None; timers := []; next_handle := 1;
     sockets := []; processed := []; uncaught := [];
     handles_uncaught := handles_uncaught; alive := true;
     refuses := fun _ => None |}.

Definition timeout_error (service version targetAction : string) : exn :=
  Error ("Run-time call timed out for " ++ service ++ " (" ++ version ++ ") "
         ++ dquote ++ targetAction ++ dquote).

Definition control_frame : frame := FString (String "001"%char EmptyString).

(** [clearTimeout(handle)]. *)
Definition clearTimeout (handle : option nat) (ts : list Timer) : list Timer :=
  match handle with
  | Some h => filter (fun t => negb (Nat.eqb (timer_handle t) h)) ts
  | None => ts
  end.

Definition unref (sid : nat) (ss : list Socket) : list Socket :=
  map (fun ix =>
         let s := snd ix in
         if Nat.eqb (fst ix) sid
         then {| socket_type := socket_type s; socket_bound := socket_bound s;
                 socket_refd := false; socket_sent := socket_sent s |}
         else s)
      (combine (seq 0 (List.length ss)) ss).

(** An exception reaches the event loop. *)
Definition escape (e : exn) (w : World) : World :=
  {| _action := _action w; _timeout := _timeout w; timers := timers w;
     next_handle := next_handle w; sockets := sockets w;
     processed := processed w; uncaught := uncaught w ++ [e];
     handles_uncaught := handles_uncaught w; alive := handles_uncaught w;
     refuses := refuses w |}.

(** [socket.bindSync(address)] throws when the address is still bound, by a
    socket of this caller (none is ever released) or outside it. *)
Definition held (w : World) (address : string) : bool :=
  existsb (fun s => mem address (socket_bound s)) (sockets w).

Definition bind_refusal (w : World) (address : string) : option string :=
  if held w address then Some "Address already in use"
  else refuses w address.

Definition can_bind (w : World) (address : string) : bool :=
  match bind_refusal w address with
  | Some _ => false
  | None => true
  end.

Section WithCollaborators.

Variable m : Mappings.
Variable codec : Codec.

Definition command (action : Action) (service version targetAction : string)
  (params files : value) : value :=
  literal
    [ (m_meta m, literal [ (m_service m, VStr "service") ]);
      (m_command m,
       literal
         [ (m_name m, VStr "runtime-call");
           (m_arguments m,
            literal
              [ (m_action m, action_self action);
                (m_callee m, VArr [VStr service; VStr version; VStr targetAction]);
                (m_transport m, action_transport action);
                (m_params m, params);
                (m_files m, files) ]) ]) ].

(** [call]: the world it leaves and whether it returned or threw.  The
    socket made is the last of [sockets], the timer armed has the handle
    [next_handle] had.  When the binding throws, the action is already
    stored and the socket made, and neither the timer nor the message
    follow. *)
Definition call (w : World) (action : Action)
  (service version targetAction address : string)
  (params files : value) (timeout : option Z) : World * result unit :=
  let params := default_param (VArr []) params in
  let files := default_param (VArr []) files in
  let timeout := match timeout with Some t => t | None => 1000%Z end in
  let envelope := command action service version targetAction params files in
  let sid := List.length (sockets w) in
  match bind_refusal w address with
  | Some message =>
      let socket :=
        {| socket_type := "rep"; socket_bound := []; socket_refd := true;
           socket_sent := [] |} in
      ({| _action := Some action; _timeout := _timeout w;
          timers := timers w; next_handle := next_handle w;
          sockets := sockets w ++ [socket];
          processed := processed w; uncaught := uncaught w;
          handles_uncaught := handles_uncaught w; alive := alive w;
          refuses := refuses w |},
       Throw (Error message))
  | None =>
      let handle := next_handle w in
      let timer :=
        {| timer_handle := handle; timer_delay := timeout; timer_socket := sid;
           timer_service := service; timer_version := version;
           timer_targetAction := targetAction |} in
      let socket :=
        {| socket_type := "rep"; socket_bound := [address]; socket_refd := true;
           socket_sent := [[control_frame; FBuffer (pack codec envelope)]] |} in
      ({| _action := Some action; _timeout := Some handle;
          timers := timers w ++ [timer]; next_handle := S handle;
          sockets := sockets w ++ [socket];
          processed := processed w; uncaught := uncaught w;
          handles_uncaught := handles_uncaught w; alive := alive w;
          refuses := refuses w |},
       Ok tt)
  end.

Definition _parseReply (w : World) (response : list Byte.byte) : World :=
  let cleared :=
    {| _action := _action w; _timeout := _timeout w;
       timers := clearTimeout (_timeout w) (timers w);
       next_handle := next_handle w; sockets := sockets w;
       processed := processed w; uncaught := uncaught w;
       handles_uncaught := handles_uncaught w; alive := alive w;
       refuses := refuses w |} in
  match _action w with
  | None => escape TypeError cleared
  | Some action =>
      match unpack codec response with
      | Throw e => escape e cleared
      | Ok payload =>
          {| _action := _action w; _timeout := _timeout w;
             timers := timers cleared;
             next_handle := next_handle w; sockets := sockets w;
             processed := processed w ++ [(action, payload)];
             uncaught := uncaught w;
             handles_uncaught := handles_uncaught w; alive := alive w;
             refuses := refuses w |}
      end
  end.

(** The callback [call] hands to [setTimeout]. *)
Definition on_timeout (w : World) (t : Timer) : World :=
  escape
    (timeout_error (timer_service t) (timer_version t) (timer_targetAction t))
    {| _action := _action w; _timeout := _timeout w; timers := timers w;
       next_handle := next_handle w;
       sockets := unref (timer_socket t) (sockets w);
       processed := processed w; uncaught := uncaught w;
       handles_uncaught := handles_uncaught w; alive := alive w;
       refuses := refuses w |}.

Inductive event : Type :=
| Message (socket : nat) (response : list Byte.byte)
| TimerExpired (handle : nat).

(** A frame can come in on a socket that is bound. *)
Definition listening (w : World) (sid : nat) : bool :=
  match nth_error (sockets w) sid with
  | Some s =>
      match socket_bound s with
      | [] => false
      | _ :: _ => true
      end
  | None => false
  end.

(** One turn of the event loop.  A frame for a bound socket runs the
    socket's listener; a timer that is still armed fires once and is
    disarmed; a process that has ended runs nothing. *)
Definition dispatch (w : World) (ev : event) : World :=
  if negb (alive w) then w
  else
    match ev with
    | Message sid response =>
        if listening w sid then _parseReply w response else w
    | TimerExpired h =>
        match find (fun t => Nat.eqb (timer_handle t) h) (timers w) with
        | Some t =>
            on_timeout
              {| _action := _action w; _timeout := _timeout w;
                 timers := clearTimeout (Some h) (timers w);
                 next_handle := next_handle w; sockets := sockets w;
                 processed := processed w; uncaught := uncaught w;
                 handles_uncaught := handles_uncaught w; alive := alive w;
                 refuses := refuses w |} t
        | None => w
        end
    end.

Definition run (w : World) (evs : list event) : World :=
  fold_left dispatch evs w.

End WithCollaborators.

End ZMQRuntimeCaller.

(** ** Instances to run the code on *)

(** Modelled from the spec: the key table [./mappings] is missing from the
    sources; the keys are the field names the spec lists for the schema
    source format and for the wire envelope. *)
Definition spec_mappings : Mappings :=
  {| m_meta := "meta"; m_service := "service"; m_command := "command";
     m_name := "name"; m_arguments := "arguments"; m_action := "action";
     m_callee := "callee"; m_transport := "transport"; m_params := "params";
     m_files := "files"; m_fallback := "fallback";
     m_entity_path := "entity_path"; m_path_delimiter := "path_delimiter";
     m_primary_key := "primary_key"; m_collection := "collection";
     m_entity := "entity"; m_http := "http"; m_return := "return";
     m_timeout := "timeout"; m_is_deprecated := "is_deprecated";
     m_relations := "relations"; m_tags := "tags"; m_calls := "calls";
     m_deferred_calls := "deferred_calls";
     m_remote_calls := "remote_calls" |}.

(** The members every object inherits from [Object.prototype], but
    [__proto__]. *)
Definition object_prototype : list string :=
  [ "constructor"; "hasOwnProperty"; "isPrototypeOf"; "propertyIsEnumerable";
    "toLocaleString"; "toString"; "valueOf";
    "__defineGetter__"; "__defineSetter__"; "__lookupGetter__";
    "__lookupSetter__" ].

(** The methods of [Array.prototype] (ECMAScript 2017). *)
Definition array_prototype : list string :=
  [ "concat"; "copyWithin"; "entries"; "every"; "fill"; "filter"; "find";
    "findIndex"; "forEach"; "includes"; "indexOf"; "join"; "keys";
    "lastIndexOf"; "map"; "pop"; "push"; "reduce"; "reduceRight"; "reverse";
    "shift"; "slice"; "some"; "sort"; "splice"; "unshift"; "values" ].

(** The methods of [String.prototype] (ECMAScript 2017). *)
Definition string_prototype : list string :=
  [ "charAt"; "charCodeAt"; "codePointAt"; "concat"; "endsWith"; "includes";
    "indexOf"; "lastIndexOf"; "localeCompare"; "match"; "normalize";
    "padEnd"; "padStart"; "repeat"; "replace"; "search"; "slice"; "split";
    "startsWith"; "substr"; "substring"; "toLowerCase"; "toUpperCase";
    "toLocaleLowerCase"; "toLocaleUpperCase"; "trim"; "trimLeft";
    "trimRight" ].

(** The methods of [Number.prototype] (ECMAScript 2017). *)
Definition number_prototype : list string :=
  [ "toExponential"; "toFixed"; "toPrecision" ].

(** The member found through a prototype with the given methods, above
    [Object.prototype]. *)
Definition inherited (prototype : string) (methods : list string) (k : string)
  : value :=
  if String.eqb k "__proto__" then VFun prototype
  else if mem k methods then VFun (prototype ++ "." ++ k)
  else if mem k object_prototype then VFun ("Object.prototype." ++ k)
  else VUndefined.

(** An engine to run the examples on: the members of the prototypes as
    ECMAScript 2017 has them.  The examples read no member of a built-in
    object itself and convert none to a string; the answers given here for
    these are placeholders. *)
Definition example_engine : Engine :=
  {| member :=
       fun r k =>
         match r with
         | OfObject => Some (inherited "Object.prototype" [] k)
         | OfArray => Some (inherited "Array.prototype" array_prototype k)
         | OfString => Some (inherited "String.prototype" string_prototype k)
         | OfNumber => Some (inherited "Number.prototype" number_prototype k)
         | OfBoolean => Some (inherited "Boolean.prototype" [] k)
         | OfBuiltin _ => Some VUndefined
         end;
     behaves_as :=
       fun h =>
         if String.eqb h "Array.prototype" then Some (VArr [])
         else if String.eqb h "String.prototype" then Some (VStr EmptyString)
         else None;
     own_keys := fun _ => [];
     show := fun _ => None |}.

(** Modelled from the spec: the sub-schema classes are missing from the
    sources.  A param or file schema takes its name from the key it is
    declared under; the entity descriptor keeps the entity path, the path
    delimiter, the primary key, the collection flag and the definition; the
    return-value schema is optional; the other fragments are opaque. *)
Definition spec_subschemas : SubSchemas :=
  {| TransportFallbackSchema_fromMapping := fun v => v;
     HttpActionSchema_fromMapping := fun v => v;
     ReturnValueSchema_fromMapping :=
       fun v => match v with
                | VUndefined => VNull
                | _ => VObj [("_mapping", v)]
                end;
     ReturnValueSchema_getType :=
       fun r => mp <- get example_engine r "_mapping" ;;
                get example_engine mp "type";
     ActionRelationSchema_parseMapping := fun v _ _ => v;
     ParamSchema_fromMapping :=
       fun name v => VObj [("_name", VStr name); ("_mapping", v)];
     FileSchema_fromMapping :=
       fun name v => VObj [("_name", VStr name); ("_mapping", v)];
     ActionEntity_new :=
       fun path delimiter key collection definition =>
         VObj [("_entityPath", path); ("_pathDelimiter", delimiter);
               ("_primaryKey", key); ("_collection", collection);
               ("_definition", definition)];
     ActionEntity_getEntityPath := fun v => get example_engine v "_entityPath";
     ActionEntity_getPathDelimiter :=
       fun v => get example_engine v "_pathDelimiter" |}.

(** A codec to run the caller on: a frame of [n] bytes decodes to the number
    [n]. *)
Definition length_codec : ZMQRuntimeCaller.Codec :=
  {| ZMQRuntimeCaller.pack := fun _ => [];
     ZMQRuntimeCaller.unpack :=
       fun b => Ok (VNum (Z.of_nat (List.length b))) |}.

(** ** When [fromMapping] returns *)

(** The property can be read: the value is not [null] or [undefined] and
    the engine's getter, where one is reached, does not throw. *)
Definition readable (e : Engine) (v : value) (k : string) : bool :=
  match get e v k with
  | Ok _ => true
  | Throw _ => false
  end.

Definition value_at (e : Engine) (v : value) (k : string) : value :=
  match get e v k with
  | Ok x => x
  | Throw _ => VUndefined
  end.

(** The property a mapping gives for a key, or the default. *)
Definition property (e : Engine) (mapping : value) (key : string)
  (default : value) : value :=
  match readProperty e mapping key default with
  | Ok v => v
  | Throw _ => default
  end.

Definition key_list (e : Engine) (v : value) : list string :=
  match keys e v with
  | Ok ks => ks
  | Throw _ => []
  end.

Definition is_nullish (v : value) : bool :=
  match v with
  | VUndefined | VNull => true
  | _ => false
  end.

Definition array_like (e : Engine) (v : value) : bool :=
  match as_array e v with
  | Ok _ => true
  | Throw _ => false
  end.

Definition elements (e : Engine) (v : value) : list value :=
  match as_array e v with
  | Ok l => l
  | Throw _ => []
  end.

Definition all (conditions : list bool) : bool :=
  forallb (fun b => b) conditions.

(** The mappings [fromMapping] accepts, its steps in their order: every
    property it reads can be read, the params and the files can be listed
    for keys and read under them, and the relations are an array. *)
Definition loadable (e : Engine) (m : Mappings) (mapping : value) : bool :=
  let paramsObject := property e mapping (m_params m) (VObj []) in
  let filesMapping := property e mapping (m_files m) (VArr []) in
  all [ readable e mapping (m_fallback m);
        readable e mapping (m_entity_path m);
        readable e mapping (m_path_delimiter m);
        readable e mapping (m_primary_key m);
        readable e mapping (m_collection m);
        readable e mapping (m_entity m);
        readable e mapping (m_http m);
        readable e mapping (m_return m);
        readable e mapping (m_params m);
        negb (is_nullish paramsObject);
        forallb (readable e paramsObject) (key_list e paramsObject);
        readable e mapping (m_files m);
        negb (is_nullish filesMapping);
        forallb (readable e filesMapping) (key_list e filesMapping);
        readable e mapping (m_timeout m);
        readable e mapping (m_is_deprecated m);
        readable e mapping (m_relations m);
        array_like e (property e mapping (m_relations m) (VArr []));
        readable e mapping (m_tags m);
        readable e mapping (m_calls m);
        readable e mapping (m_deferred_calls m);
        readable e mapping (m_remote_calls m) ].

(** The schema a loadable mapping is parsed to. *)
Definition parsed (e : Engine) (m : Mappings) (sub : SubSchemas)
  (name : string) (mapping : value) : obj :=
  let paramsObject := property e mapping (m_params m) (VObj []) in
  let filesMapping := property e mapping (m_files m) (VArr []) in
  ActionSchema.constructor (VStr name)
    (property e mapping (m_timeout m) (VNum 1000))
    (ActionEntity_new sub
       (property e mapping (m_entity_path m) (VStr EmptyString))
       (property e mapping (m_path_delimiter m) (VStr "/"))
       (property e mapping (m_primary_key m) (VStr "id"))
       (property e mapping (m_collection m) (VBool false))
       (property e mapping (m_entity m) (VObj [])))
    (TransportFallbackSchema_fromMapping sub (value_at e mapping (m_fallback m)))
    (HttpActionSchema_fromMapping sub (value_at e mapping (m_http m)))
    (property e mapping (m_is_deprecated m) (VBool false))
    (VArr (map (fun k => ParamSchema_fromMapping sub k (value_at e paramsObject k))
               (key_list e paramsObject)))
    (VArr (map (fun k => FileSchema_fromMapping sub k (value_at e filesMapping k))
               (key_list e filesMapping)))
    (VArr (map_indexed (ActionRelationSchema_parseMapping sub)
             (elements e (property e mapping (m_relations m) (VArr [])))))
    (property e mapping (m_tags m) (VArr []))
    (property e mapping (m_calls m) (VBool false))
    (property e mapping (m_deferred_calls m) (VBool false))
    (property e mapping (m_remote_calls m) (VBool false))
    (ReturnValueSchema_fromMapping sub (value_at e mapping (m_return m))).

(** ** Predicates of the statements *)

Fixpoint distinct (l : list string) : bool :=
  match l with
  | [] => true
  | k :: l' => negb (mem k l') && distinct l'
  end.

(** The keys of one object literal of the envelope do not collide. *)
Definition envelope_keys_distinct (m : Mappings) : bool :=
  distinct [m_name m; m_arguments m]
  && distinct [m_action m; m_callee m; m_transport m; m_params m; m_files m].

(** The declared calls a call query can filter: an array whose entries can
    be read for the fields of a call, which excludes the entries [null] and
    [undefined]. *)
Definition filterable (e : Engine) (fields : list string) (source : value)
  : bool :=
  match as_array e source with
  | Ok l => forallb (fun x => forallb (readable e x) fields) l
  | Throw _ => false
  end.

Definition call_fields : list string :=
  ["serviceName"; "serviceVersion"; "actionName"].

Definition remote_call_fields : list string :=
  ["publicAddress"; "serviceName"; "serviceVersion"; "actionName"].

(** The data that holds [leaf] under the keys, one object per key. *)
Fixpoint nest (keys : list string) (leaf : value) : value :=
  match keys with
  | [] => leaf
  | k :: keys' => VObj [(k, nest keys' leaf)]
  end.

(** An instance with a field assigned after construction. *)
Definition assign (this : obj) (k : string) (v : value) : obj := put k v this.

Definition is_message (ev : ZMQRuntimeCaller.event) : bool :=
  match ev with
  | ZMQRuntimeCaller.Message _ _ => true
  | ZMQRuntimeCaller.TimerExpired _ => false
  end.

(** No armed timer has the handle the next call will be given. *)
Definition handle_is_fresh (w : ZMQRuntimeCaller.World) : bool :=
  forallb
    (fun t => negb (Nat.eqb (ZMQRuntimeCaller.timer_handle t)
                      (ZMQRuntimeCaller.next_handle w)))
    (ZMQRuntimeCaller.timers w).

(** ** Data the code is run on *)

(** The mapping [{entity_path: "a/b"}] and the data [{a: {b: {x: 1}}}]. *)
Definition nested_mapping : value := VObj [("entity_path", VStr "a/b")].

Definition nested_data : value :=
  VObj [("a", VObj [("b", VObj [("x", VNum 1)])])].

(** A declared call, under the field names [_hasCalls] reads. *)
Definition declared_call : value :=
  VObj [("serviceName", VStr "a"); ("serviceVersion", VStr "1.0");
        ("actionName", VStr "x")].

(** [new ActionSchema("act", ...)] with [declared_call] as its only call and
    its only deferred call. *)
Definition calling_schema : obj :=
  ActionSchema.constructor (VStr "act") VUndefined VUndefined VUndefined
    VUndefined VUndefined VUndefined VUndefined VUndefined VUndefined
    (VArr [declared_call]) (VArr [declared_call]) VUndefined VUndefined.

Definition params_mapping : value :=
  VObj [("params", VObj [("limit", VObj [("type", VStr "integer")])])].

Definition files_mapping : value :=
  VObj [("files", VObj [("avatar", VObj [("mime", VStr "image/png")])])].

Definition explicit_mapping : value :=
  VObj [("timeout", VNum 250); ("is_deprecated", VBool true)].

(** [new ActionSchema("act")]. *)
Definition bare_schema : obj :=
  ActionSchema.constructor (VStr "act") VUndefined VUndefined VUndefined
    VUndefined VUndefined VUndefined VUndefined VUndefined VUndefined
    VUndefined VUndefined VUndefined VUndefined.

Definition some_action : ZMQRuntimeCaller.Action :=
  {| ZMQRuntimeCaller.action_self := VObj [("_actionName", VStr "list")];
     ZMQRuntimeCaller.action_transport := VObj [("meta", VObj [])] |}.

Definition other_action : ZMQRuntimeCaller.Action :=
  {| ZMQRuntimeCaller.action_self := VObj [("_actionName", VStr "create")];
     ZMQRuntimeCaller.action_transport := VObj [("meta", VObj [])] |}.

(** [bare_schema] with an entity path and a delimiter assigned to it. *)
Definition pathed_schema : obj :=
  assign (assign bare_schema "_entityPath" (VStr "a/b")) "_pathDelimiter"
    (VStr "/").

(** [new ActionSchema("act", ...)] with files keyed by name. *)
Definition filed_schema : obj :=
  ActionSchema.constructor (VStr "act") VUndefined VUndefined VUndefined
    VUndefined VUndefined VUndefined
    (VObj [("avatar", VObj [("_name", VStr "avatar")])])
    VUndefined VUndefined VUndefined VUndefined VUndefined VUndefined.

Definition tagged_mapping : value :=
  VObj [("tags", VArr [VStr "public"; VStr "beta"]);
        ("relations", VArr [VObj [("name", VStr "posts")]])].

Definition two_files_mapping : value :=
  VObj [("files", VObj [("avatar", VObj []); ("resume", VObj [])])].

(** ** Lemmas on the embedding *)

Example split_slash : split "/" "a/b" = ["a"; "b"].
Proof. reflexivity. Qed.

Example split_wide : split "::" "a::b:c::" = ["a"; "b:c"; EmptyString].
Proof. reflexivity. Qed.

Example index_canonical :
  array_index "12" = Some 12%nat /\ array_index "012" = None /\
  array_index "avatar" = None /\ array_index EmptyString = None.
Proof. repeat split; reflexivity. Qed.

Lemma get_throws (e : Engine) (v : value) (k : string) (x : exn) :
  get e v k = Throw x -> x = TypeError.
Proof.
  unfold get, engine_answer.
  destruct v;
    repeat match goal with
           | |- context [match ?c with _ => _ end] => destruct c
           end; intros H; try discriminate H; injection H as H; auto.
Qed.

Lemma get_cases (e : Engine) (v : value) (k : string) :
  get e v k
  = if readable e v k then Ok (value_at e v k) else Throw TypeError.
Proof.
  unfold readable, value_at. destruct (get e v k) as [x|x] eqn:E.
  - reflexivity.
  - rewrite (get_throws e v k x E). reflexivity.
Qed.

Lemma readProperty_cases (e : Engine) (v : value) (k : string) (d : value) :
  readProperty e v k d
  = if readable e v k then Ok (property e v k d) else Throw TypeError.
Proof.
  unfold property, readProperty, readable.
  destruct (get e v k) as [x|x] eqn:E; cbn [bind].
  - reflexivity.
  - rewrite (get_throws e v k x E). reflexivity.
Qed.

Lemma keys_cases (e : Engine) (v : value) :
  keys e v = if negb (is_nullish v) then Ok (key_list e v) else Throw TypeError.
Proof. unfold key_list. destruct v; reflexivity. Qed.

Lemma as_array_cases (e : Engine) (v : value) :
  as_array e v = if array_like e v then Ok (elements e v) else Throw TypeError.
Proof.
  unfold array_like, elements. destruct v; try reflexivity.
  cbn [as_array]. destruct (behaves_as e name) as [[]|]; reflexivity.
Qed.

Lemma mapM_total {A B : Type} (f : A -> result B) (g : A -> B) (l : list A) :
  (forall a, f a = Ok (g a)) -> mapM f l = Ok (map g l).
Proof.
  intros Hf. induction l as [|a l IH]; simpl.
  - reflexivity.
  - rewrite Hf, IH. reflexivity.
Qed.

Lemma mapM_get_cases {B : Type} (e : Engine) (v : value)
  (f : string -> value -> B) (ks : list string) :
  mapM (fun k => p <- get e v k ;; Ok (f k p)) ks
  = if forallb (readable e v) ks
    then Ok (map (fun k => f k (value_at e v k)) ks)
    else Throw TypeError.
Proof.
  induction ks as [|k ks IH]; cbn [mapM forallb map].
  - reflexivity.
  - rewrite get_cases. destruct (readable e v k); cbn [bind andb].
    + rewrite IH. destruct (forallb (readable e v) ks); reflexivity.
    + reflexivity.
Qed.

Lemma bind_Ok {A B : Type} (a : A) (k : A -> result B) : bind (Ok a) k = k a.
Proof. reflexivity. Qed.

Lemma bind_Throw {A B : Type} (x : exn) (k : A -> result B) :
  bind (Throw x) k = Throw x.
Proof. reflexivity. Qed.

Ltac step_on b :=
  destruct b;
  [ rewrite ?bind_Ok; cbv beta
  | rewrite ?bind_Throw; cbn [forallb andb negb]; reflexivity ].

Lemma fromMapping_cases (e : Engine) (m : Mappings) (sub : SubSchemas)
  (name : string) (mapping : value) :
  ActionSchema.fromMapping e m sub name mapping
  = if loadable e m mapping then Ok (parsed e m sub name mapping)
    else Throw TypeError.
Proof.
  unfold ActionSchema.fromMapping, loadable, parsed, all.
  rewrite !get_cases, !readProperty_cases. cbv zeta.
  step_on (readable e mapping (m_fallback m)).
  step_on (readable e mapping (m_entity_path m)).
  step_on (readable e mapping (m_path_delimiter m)).
  step_on (readable e mapping (m_primary_key m)).
  step_on (readable e mapping (m_collection m)).
  step_on (readable e mapping (m_entity m)).
  step_on (readable e mapping (m_http m)).
  step_on (readable e mapping (m_return m)).
  step_on (readable e mapping (m_params m)).
  rewrite keys_cases. cbn [forallb andb].
  destruct (is_nullish (property e mapping (m_params m) (VObj [])));
    cbn [negb andb]; [reflexivity|].
  rewrite ?bind_Ok; cbv beta. rewrite mapM_get_cases.
  step_on (forallb (readable e (property e mapping (m_params m) (VObj [])))
             (key_list e (property e mapping (m_params m) (VObj [])))).
  step_on (readable e mapping (m_files m)).
  rewrite keys_cases. cbn [forallb andb].
  destruct (is_nullish (property e mapping (m_files m) (VArr [])));
    cbn [negb andb]; [reflexivity|].
  rewrite ?bind_Ok; cbv beta. rewrite mapM_get_cases.
  step_on (forallb (readable e (property e mapping (m_files m) (VArr [])))
             (key_list e (property e mapping (m_files m) (VArr [])))).
  step_on (readable e mapping (m_timeout m)).
  step_on (readable e mapping (m_is_deprecated m)).
  step_on (readable e mapping (m_relations m)).
  rewrite as_array_cases.
  step_on (array_like e (property e mapping (m_relations m) (VArr []))).
  step_on (readable e mapping (m_tags m)).
  step_on (readable e mapping (m_calls m)).
  step_on (readable e mapping (m_deferred_calls m)).
  step_on (readable e mapping (m_remote_calls m)).
  reflexivity.
Qed.

Lemma fromMapping_loadable (e : Engine) (m : Mappings) (sub : SubSchemas)
  (name : string) (mapping : value) :
  loadable e m mapping = true ->
  ActionSchema.fromMapping e m sub name mapping
  = Ok (parsed e m sub name mapping).
Proof. intros L. rewrite fromMapping_cases, L. reflexivity. Qed.

Lemma fromMapping_returns (e : Engine) (m : Mappings) (sub : SubSchemas)
  (name : string) (mapping : value) (this : obj) :
  ActionSchema.fromMapping e m sub name mapping = Ok this ->
  loadable e m mapping = true /\ this = parsed e m sub name mapping.
Proof.
  rewrite fromMapping_cases. destruct (loadable e m mapping); intros H.
  - injection H as H. split; [reflexivity | symmetry; exact H].
  - discriminate H.
Qed.

Lemma filterM_exact (f : value -> result value) (ok : value -> bool)
  (l : list value) :
  (forall x, ok x = true -> exists v, f x = Ok v /\ truthy v = false) ->
  (forall x, ok x = false -> f x = Throw TypeError) ->
  ActionSchema.filterM f l = if forallb ok l then Ok [] else Throw TypeError.
Proof.
  intros Hok Hthrow. induction l as [|x l IH]; simpl.
  - reflexivity.
  - destruct (ok x) eqn:Hx; cbn [andb].
    + destruct (Hok x Hx) as [v [E Hv]]. rewrite E, IH. cbn [bind].
      destruct (forallb ok l); cbn [bind].
      * rewrite Hv. reflexivity.
      * reflexivity.
    + rewrite (Hthrow x Hx). reflexivity.
Qed.

Lemma call_matches_cases (e : Engine) (name : string)
  (version action : option string) (x : value) :
  (forallb (readable e x) call_fields = true ->
   exists v, ActionSchema.call_matches e name version action x = Ok v
             /\ truthy v = false)
  /\ (forallb (readable e x) call_fields = false ->
      ActionSchema.call_matches e name version action x = Throw TypeError).
Proof.
  unfold ActionSchema.call_matches, call_fields. cbn [forallb].
  rewrite !get_cases.
  destruct (readable e x "serviceName"); cbn [bind andb];
    [|split; [discriminate | reflexivity]].
  destruct (readable e x "serviceVersion"); cbn [bind andb];
    [|split; [discriminate | reflexivity]].
  destruct (readable e x "actionName"); cbn [bind andb];
    [|split; [discriminate | reflexivity]].
  split; [|discriminate]. intros _.
  repeat match goal with
         | |- context [if ?b then _ else _] => destruct b
         end; eexists; split; reflexivity.
Qed.

Lemma remote_call_matches_cases (e : Engine) (address : string)
  (name version action : option string) (x : value) :
  (forallb (readable e x) remote_call_fields = true ->
   exists v,
     ActionSchema.remote_call_matches e address name version action x = Ok v
     /\ truthy v = false)
  /\ (forallb (readable e x) remote_call_fields = false ->
      ActionSchema.remote_call_matches e address name version action x
      = Throw TypeError).
Proof.
  unfold ActionSchema.remote_call_matches, remote_call_fields. cbn [forallb].
  rewrite !get_cases.
  destruct (readable e x "publicAddress"); cbn [bind andb];
    [|split; [discriminate | reflexivity]].
  destruct (readable e x "serviceName"); cbn [bind andb];
    [|split; [discriminate | reflexivity]].
  destruct (readable e x "serviceVersion"); cbn [bind andb];
    [|split; [discriminate | reflexivity]].
  destruct (readable e x "actionName"); cbn [bind andb];
    [|split; [discriminate | reflexivity]].
  split; [|discriminate]. intros _.
  repeat match goal with
         | |- context [if ?b then _ else _] => destruct b
         end; eexists; split; reflexivity.
Qed.

Lemma _hasCalls_exact (e : Engine) (source : value) (name : string)
  (version action : option string) :
  ActionSchema._hasCalls e source name version action
  = if filterable e call_fields source then Ok false else Throw TypeError.
Proof.
  unfold ActionSchema._hasCalls, filterable.
  destruct (as_array e source) as [l|x] eqn:E; cbn [bind].
  - rewrite (filterM_exact (ActionSchema.call_matches e name version action)
               (fun x => forallb (readable e x) call_fields)).
    + destruct (forallb _ l); reflexivity.
    + intros x. apply call_matches_cases.
    + intros x. apply call_matches_cases.
  - rewrite as_array_cases in E. destruct (array_like e source);
      [discriminate E | injection E as <-; reflexivity].
Qed.

Lemma _hasCalls_never_true (e : Engine) (source : value) (name : string)
  (version action : option string) :
  ActionSchema._hasCalls e source name version action = Ok false
  \/ ActionSchema._hasCalls e source name version action = Throw TypeError.
Proof.
  rewrite _hasCalls_exact.
  destruct (filterable e call_fields source); [left | right]; reflexivity.
Qed.

Lemma forEach_pick_param (e : Engine) (name : string)
  (params names : list value) :
  mapM (fun param => get e param "_name") params = Ok names ->
  forEach (ActionSchema.pick_param e name) params = Ok tt.
Proof.
  revert names. induction params as [|p params IH]; intros names H; simpl in *.
  - reflexivity.
  - unfold ActionSchema.pick_param at 1.
    destruct (get e p "_name") as [n|x]; cbn [bind] in *; [|discriminate H].
    destruct (mapM (fun param => get e param "_name") params) as [ns|x] eqn:E;
      cbn [bind] in H; [|discriminate H].
    destruct (is_string name n); cbn [bind]; apply (IH ns); reflexivity.
Qed.

Ltac read_field :=
  unfold parsed, ActionSchema.constructor;
  cbn [ActionSchema.field lookup String.eqb Ascii.eqb Bool.eqb default_param].

(** ** Entity resolution *)

(** C1. [resolveEntity] of a schema built by [fromMapping] hands [data] back
    whatever the mapping configures as entity path: it tests [_entityPath],
    a field the constructor never assigns (the path is kept inside
    [_entity]), so the descent through the path is never reached. *)
Theorem resolveEntity_returns_data (e : Engine) (m : Mappings)
  (sub : SubSchemas) (name : string) (mapping : value) (this : obj)
  (data : value) :
  ActionSchema.fromMapping e m sub name mapping = Ok this ->
  ActionSchema.resolveEntity e this data = Ok data.
Proof.
  intros H. apply fromMapping_returns in H. destruct H as [_ ->].
  reflexivity.
Qed.

Lemma resolveEntity_returns_data_witness :
  ActionSchema.fromMapping example_engine spec_mappings spec_subschemas "act"
    nested_mapping
  = Ok (parsed example_engine spec_mappings spec_subschemas "act" nested_mapping)
  /\ ActionSchema.resolveEntity example_engine
       (parsed example_engine spec_mappings spec_subschemas "act" nested_mapping)
       nested_data
     = Ok nested_data.
Proof.
  split.
  - reflexivity.
  - apply (resolveEntity_returns_data example_engine spec_mappings
             spec_subschemas "act" nested_mapping).
    reflexivity.
Defined.

(** The path is configured, and the descent, had it been run on the path and
    the delimiter of the entity, ends on the nested value. *)
Example entity_path_is_configured :
  let this :=
    parsed example_engine spec_mappings spec_subschemas "act" nested_mapping in
  ActionSchema.getEntityPath spec_subschemas this = Ok (VStr "a/b")
  /\ ActionSchema.getPathDelimiter spec_subschemas this = Ok (VStr "/")
  /\ ActionSchema.field this "_entityPath" = VUndefined
  /\ ActionSchema.descend_all example_engine this nested_data (split "/" "a/b")
     = Ok (VObj [("x", VNum 1)])
  /\ ActionSchema.descend_all example_engine this (VObj [("a", VObj [])])
       (split "/" "a/b")
     = Throw (Error "Cannot resolve entity for action: act").
Proof. repeat split; reflexivity. Qed.

(** ** Declared calls *)

(** C2. [hasCall] and [hasDeferCall] never answer [true]: the callback they
    filter with returns [false] or nothing, so no declared call is kept. *)
Theorem hasCall_never_true (e : Engine) (this : obj) (name : string)
  (version action : option string) :
  (ActionSchema.hasCall e this name version action = Ok false
   \/ ActionSchema.hasCall e this name version action = Throw TypeError)
  /\ (ActionSchema.hasDeferCall e this name version action = Ok false
      \/ ActionSchema.hasDeferCall e this name version action
         = Throw TypeError).
Proof.
  split; apply _hasCalls_never_true.
Qed.

Example hasCall_declared :
  ActionSchema.hasCall example_engine calling_schema "a" None None = Ok false
  /\ ActionSchema.hasCall example_engine calling_schema "a" (Some "1.0")
       (Some "x") = Ok false
  /\ ActionSchema.hasCall example_engine calling_schema "a" (Some "2.0") None
     = Ok false
  /\ ActionSchema.hasCall example_engine calling_schema "b" None None
     = Ok false
  /\ ActionSchema.hasDeferCall example_engine calling_schema "a" None None
     = Ok false.
Proof. repeat split; reflexivity. Qed.

(** ** Params *)

(** C3. [getParamSchema] throws the resolution error naming the parameter
    when [hasParam] is false, and returns [null] when [hasParam] is true:
    the schema found inside the [forEach] is returned to the loop only. *)
Theorem getParamSchema_result (e : Engine) (this : obj) (name : string) :
  ActionSchema.getParamSchema e this name
  = match ActionSchema.hasParam e this name with
    | Ok true => Ok VNull
    | Ok false => Throw (Error ("Cannot resolve schema for parameter: " ++ name))
    | Throw x => Throw x
    end.
Proof.
  unfold ActionSchema.getParamSchema.
  destruct (ActionSchema.hasParam e this name) as [[|]|x] eqn:H;
    cbn [bind negb]; try reflexivity.
  unfold ActionSchema.hasParam, ActionSchema.getParams in H.
  destruct (as_array e (ActionSchema.field this "_params")) as [ps|x];
    cbn [bind] in *; [|discriminate H].
  destruct (mapM (fun param => get e param "_name") ps) as [ns|x] eqn:E;
    cbn [bind] in H; [|discriminate H].
  rewrite (forEach_pick_param e name ps ns E). reflexivity.
Qed.

Example getParamSchema_declared :
  let this :=
    parsed example_engine spec_mappings spec_subschemas "act" params_mapping in
  ActionSchema.fromMapping example_engine spec_mappings spec_subschemas "act"
    params_mapping = Ok this
  /\ ActionSchema.hasParam example_engine this "limit" = Ok true
  /\ ActionSchema.getParamSchema example_engine this "limit" = Ok VNull
  /\ ActionSchema.hasParam example_engine this "offset" = Ok false
  /\ ActionSchema.getParamSchema example_engine this "offset"
     = Throw (Error "Cannot resolve schema for parameter: offset").
Proof. repeat split; reflexivity. Qed.

(** ** Files *)

(** C4. In a schema built by [fromMapping] the files are an array, and
    [hasFile] reads the array by the file name: a name that is not an
    index, not [length] and not a member the engine gives arrays is answered
    [false], declared or not, and [getFileSchema] throws the resolution
    error for it. *)
Theorem hasFile_by_name (e : Engine) (m : Mappings) (sub : SubSchemas)
  (name : string) (mapping : value) (this : obj) (file : string) :
  ActionSchema.fromMapping e m sub name mapping = Ok this ->
  array_index file = None ->
  String.eqb file "length" = false ->
  member e OfArray file = Some VUndefined ->
  ActionSchema.hasFile e this file = Ok false
  /\ ActionSchema.getFileSchema e this file
     = Throw (Error ("Cannot resolve schema for file parameter: " ++ file)).
Proof.
  intros H Hi Hl Hm. apply fromMapping_returns in H. destruct H as [_ ->].
  assert (E : ActionSchema.hasFile e (parsed e m sub name mapping) file
              = Ok false).
  { unfold ActionSchema.hasFile. read_field.
    unfold get. rewrite Hi, Hl, Hm. reflexivity. }
  split; [exact E|].
  unfold ActionSchema.getFileSchema. rewrite E. reflexivity.
Qed.

Lemma hasFile_by_name_witness :
  let this :=
    parsed example_engine spec_mappings spec_subschemas "act" files_mapping in
  (ActionSchema.fromMapping example_engine spec_mappings spec_subschemas "act"
     files_mapping = Ok this
   /\ array_index "avatar" = None
   /\ String.eqb "avatar" "length" = false
   /\ member example_engine OfArray "avatar" = Some VUndefined)
  /\ ActionSchema.hasFile example_engine this "avatar" = Ok false
  /\ ActionSchema.getFileSchema example_engine this "avatar"
     = Throw (Error "Cannot resolve schema for file parameter: avatar").
Proof.
  split.
  - repeat split; reflexivity.
  - apply (hasFile_by_name example_engine spec_mappings spec_subschemas "act"
             files_mapping);
      reflexivity.
Defined.

Example files_of_declared :
  let this :=
    parsed example_engine spec_mappings spec_subschemas "act" files_mapping in
  ActionSchema.field this "_files"
  = VArr [VObj [("_name", VStr "avatar");
                ("_mapping", VObj [("mime", VStr "image/png")])]]
  /\ ActionSchema.getFiles example_engine this = Ok ["0"]
  /\ ActionSchema.hasFile example_engine this "0" = Ok true
  /\ ActionSchema.hasFile example_engine this "length" = Ok true
  /\ ActionSchema.hasFile example_engine this "__proto__" = Ok true.
Proof. repeat split; reflexivity. Qed.

(** ** Defaults *)

Lemma property_absent (e : Engine) (mapping : value) (key : string)
  (default : value) :
  get e mapping key = Ok VUndefined -> property e mapping key default = default.
Proof.
  intros H. unfold property, readProperty. rewrite H. reflexivity.
Qed.

Lemma property_present (e : Engine) (mapping : value) (key : string)
  (default v : value) :
  get e mapping key = Ok v -> is_undefined v = false ->
  property e mapping key default = v.
Proof.
  intros H Hv. unfold property, readProperty. rewrite H. cbn [bind].
  rewrite Hv. reflexivity.
Qed.

(** C7. A mapping without the keys of the declared calls is parsed, but the
    three sequences are then [false], not empty arrays, and the queries
    [hasCall], [hasDeferCall] and [hasRemoteCall] throw a TypeError. *)
Theorem absent_calls_are_false (e : Engine) (m : Mappings) (sub : SubSchemas)
  (name : string) (mapping : value) :
  loadable e m mapping = true ->
  get e mapping (m_calls m) = Ok VUndefined ->
  get e mapping (m_deferred_calls m) = Ok VUndefined ->
  get e mapping (m_remote_calls m) = Ok VUndefined ->
  exists this,
    ActionSchema.fromMapping e m sub name mapping = Ok this
    /\ ActionSchema.field this "_calls" = VBool false
    /\ ActionSchema.field this "_deferredCalls" = VBool false
    /\ ActionSchema.field this "_remoteCalls" = VBool false
    /\ (forall service version action,
          ActionSchema.hasCall e this service version action = Throw TypeError)
    /\ (forall service version action,
          ActionSchema.hasDeferCall e this service version action
          = Throw TypeError)
    /\ (forall address service version action,
          ActionSchema.hasRemoteCall e this address service version action
          = Throw TypeError).
Proof.
  intros L Hc Hd Hr. exists (parsed e m sub name mapping).
  split; [apply fromMapping_loadable; exact L|].
  assert (Ec : ActionSchema.field (parsed e m sub name mapping) "_calls"
               = VBool false).
  { unfold parsed. rewrite (property_absent _ _ _ _ Hc). reflexivity. }
  assert (Ed : ActionSchema.field (parsed e m sub name mapping) "_deferredCalls"
               = VBool false).
  { unfold parsed. rewrite (property_absent _ _ _ _ Hd). reflexivity. }
  assert (Er : ActionSchema.field (parsed e m sub name mapping) "_remoteCalls"
               = VBool false).
  { unfold parsed. rewrite (property_absent _ _ _ _ Hr). reflexivity. }
  repeat split; try assumption; intros.
  - unfold ActionSchema.hasCall. rewrite Ec. reflexivity.
  - unfold ActionSchema.hasDeferCall. rewrite Ed. reflexivity.
  - unfold ActionSchema.hasRemoteCall. rewrite Er. reflexivity.
Qed.

Lemma absent_calls_are_false_witness :
  (loadable example_engine spec_mappings (VObj []) = true
   /\ get example_engine (VObj []) (m_calls spec_mappings) = Ok VUndefined
   /\ get example_engine (VObj []) (m_deferred_calls spec_mappings)
      = Ok VUndefined
   /\ get example_engine (VObj []) (m_remote_calls spec_mappings)
      = Ok VUndefined)
  /\ exists this,
       ActionSchema.fromMapping example_engine spec_mappings spec_subschemas
         "act" (VObj []) = Ok this
       /\ ActionSchema.field this "_calls" = VBool false
       /\ ActionSchema.field this "_deferredCalls" = VBool false
       /\ ActionSchema.field this "_remoteCalls" = VBool false
       /\ (forall service version action,
             ActionSchema.hasCall example_engine this service version action
             = Throw TypeError)
       /\ (forall service version action,
             ActionSchema.hasDeferCall example_engine this service version
               action = Throw TypeError)
       /\ (forall address service version action,
             ActionSchema.hasRemoteCall example_engine this address service
               version action = Throw TypeError).
Proof.
  split.
  - repeat split; reflexivity.
  - apply (absent_calls_are_false example_engine spec_mappings spec_subschemas
             "act" (VObj []));
      reflexivity.
Defined.

(** C8. For a mapping [fromMapping] accepts, [getTimeout] and [isDeprecated]
    return the value the mapping supplies for [timeout] and [is_deprecated],
    and [1000] and [false] where the mapping has none. *)
Theorem timeout_and_deprecated_round_trip (e : Engine) (m : Mappings)
  (sub : SubSchemas) (name : string) (mapping : value) :
  loadable e m mapping = true ->
  exists this,
    ActionSchema.fromMapping e m sub name mapping = Ok this
    /\ (forall v, get e mapping (m_timeout m) = Ok v ->
          is_undefined v = false -> ActionSchema.getTimeout this = v)
    /\ (get e mapping (m_timeout m) = Ok VUndefined ->
          ActionSchema.getTimeout this = VNum 1000)
    /\ (forall v, get e mapping (m_is_deprecated m) = Ok v ->
          is_undefined v = false -> ActionSchema.isDeprecated this = v)
    /\ (get e mapping (m_is_deprecated m) = Ok VUndefined ->
          ActionSchema.isDeprecated this = VBool false).
Proof.
  intros L. exists (parsed e m sub name mapping).
  split; [apply fromMapping_loadable; exact L|].
  unfold ActionSchema.getTimeout, ActionSchema.isDeprecated, parsed,
    ActionSchema.constructor.
  cbn [ActionSchema.field lookup String.eqb Ascii.eqb Bool.eqb].
  repeat split.
  - intros v Hv Hu. rewrite (property_present _ _ _ _ v Hv Hu).
    destruct v; try discriminate Hu; reflexivity.
  - intros Hv. rewrite (property_absent _ _ _ _ Hv). reflexivity.
  - intros v Hv Hu. apply property_present; assumption.
  - intros Hv. apply property_absent; assumption.
Qed.

Lemma timeout_and_deprecated_round_trip_witness :
  loadable example_engine spec_mappings explicit_mapping = true
  /\ exists this,
       ActionSchema.fromMapping example_engine spec_mappings spec_subschemas
         "act" explicit_mapping = Ok this
       /\ (forall v,
             get example_engine explicit_mapping (m_timeout spec_mappings)
             = Ok v ->
             is_undefined v = false -> ActionSchema.getTimeout this = v)
       /\ (get example_engine explicit_mapping (m_timeout spec_mappings)
           = Ok VUndefined ->
             ActionSchema.getTimeout this = VNum 1000)
       /\ (forall v,
             get example_engine explicit_mapping
               (m_is_deprecated spec_mappings) = Ok v ->
             is_undefined v = false -> ActionSchema.isDeprecated this = v)
       /\ (get example_engine explicit_mapping (m_is_deprecated spec_mappings)
           = Ok VUndefined ->
             ActionSchema.isDeprecated this = VBool false).
Proof.
  split.
  - reflexivity.
  - apply (timeout_and_deprecated_round_trip example_engine spec_mappings
             spec_subschemas "act" explicit_mapping).
    reflexivity.
Defined.

Example explicit_and_default :
  ActionSchema.getTimeout
    (parsed example_engine spec_mappings spec_subschemas "act" explicit_mapping)
  = VNum 250
  /\ ActionSchema.isDeprecated
       (parsed example_engine spec_mappings spec_subschemas "act"
          explicit_mapping) = VBool true
  /\ ActionSchema.getTimeout
       (parsed example_engine spec_mappings spec_subschemas "act" (VObj []))
     = VNum 1000
  /\ ActionSchema.isDeprecated
       (parsed example_engine spec_mappings spec_subschemas "act" (VObj []))
     = VBool false.
Proof. repeat split; reflexivity. Qed.

(** ** Return value *)

(** C10. On a schema without a return-value schema ([hasReturn] is false)
    [getReturnType] throws: it calls [getType] on [null]. *)
Theorem getReturnType_needs_return (sub : SubSchemas) (this : obj) :
  ActionSchema.hasReturn this = false ->
  ActionSchema.getReturnType sub this = Throw TypeError.
Proof.
  unfold ActionSchema.hasReturn, ActionSchema.getReturnType.
  destruct (ActionSchema.field this "_returnValue"); try discriminate.
  reflexivity.
Qed.

Lemma getReturnType_needs_return_witness :
  ActionSchema.hasReturn bare_schema = false
  /\ ActionSchema.getReturnType spec_subschemas bare_schema = Throw TypeError.
Proof.
  split.
  - reflexivity.
  - apply (getReturnType_needs_return spec_subschemas bare_schema). reflexivity.
Defined.

(** ** The run-time call *)

Lemma lookup_put_same (k : string) (v : value) (o : obj) :
  lookup k (put k v o) = Some v.
Proof.
  induction o as [|[k' v'] o IH]; simpl.
  - rewrite String.eqb_refl. reflexivity.
  - destruct (String.eqb k k') eqn:E; simpl.
    + rewrite String.eqb_refl. reflexivity.
    + rewrite E. exact IH.
Qed.

Lemma lookup_put_other (k k' : string) (v : value) (o : obj) :
  String.eqb k k' = false -> lookup k (put k' v o) = lookup k o.
Proof.
  intros Hk. induction o as [|[k2 v2] o IH]; simpl.
  - rewrite Hk. reflexivity.
  - destruct (String.eqb k' k2) eqn:E; simpl.
    + apply String.eqb_eq in E. subst k2. rewrite Hk. reflexivity.
    + rewrite IH. reflexivity.
Qed.

Lemma get_own (e : Engine) (o : obj) (k : string) (v : value) :
  lookup k o = Some v -> get e (VObj o) k = Ok v.
Proof. intros H. simpl. rewrite H. reflexivity. Qed.

Ltac own_property :=
  apply get_own; cbn [fold_left fst snd];
  repeat (rewrite lookup_put_other
            by (first [assumption | rewrite String.eqb_sym; assumption]));
  apply lookup_put_same.

(** C9. Every [call] that gets its address bound sends one message of two
    frames on the socket it makes: the one-character string of code 1, then
    the packed envelope; the envelope's command is named [runtime-call] and
    its arguments hold the calling action, the callee triple, the action's
    transport object, the params and the files.  A [call] whose address the
    broker does not bind throws and sends nothing. *)
Theorem call_sends_envelope (e : Engine) (m : Mappings)
  (codec : ZMQRuntimeCaller.Codec)
  (w : ZMQRuntimeCaller.World) (action : ZMQRuntimeCaller.Action)
  (service version targetAction address : string) (params files : value)
  (timeout : option Z) :
  envelope_keys_distinct m = true ->
  exists socket envelope command arguments,
    ZMQRuntimeCaller.sockets
      (fst (ZMQRuntimeCaller.call m codec w action service version
              targetAction address params files timeout))
    = (ZMQRuntimeCaller.sockets w ++ [socket])%list
    /\ ZMQRuntimeCaller.socket_sent socket
       = (if ZMQRuntimeCaller.can_bind w address
          then [[ZMQRuntimeCaller.FString (String (ascii_of_nat 1) EmptyString);
                 ZMQRuntimeCaller.FBuffer (ZMQRuntimeCaller.pack codec envelope)]]
          else [])
    /\ (ZMQRuntimeCaller.can_bind w address = true ->
        snd (ZMQRuntimeCaller.call m codec w action service version
               targetAction address params files timeout) = Ok tt)
    /\ (ZMQRuntimeCaller.can_bind w address = false ->
        exists message,
          snd (ZMQRuntimeCaller.call m codec w action service version
                 targetAction address params files timeout)
          = Throw (Error message))
    /\ get e envelope (m_command m) = Ok command
    /\ get e command (m_name m) = Ok (VStr "runtime-call")
    /\ get e command (m_arguments m) = Ok arguments
    /\ get e arguments (m_action m) = Ok (ZMQRuntimeCaller.action_self action)
    /\ get e arguments (m_callee m)
       = Ok (VArr [VStr service; VStr version; VStr targetAction])
    /\ get e arguments (m_transport m)
       = Ok (ZMQRuntimeCaller.action_transport action)
    /\ get e arguments (m_params m) = Ok (default_param (VArr []) params)
    /\ get e arguments (m_files m) = Ok (default_param (VArr []) files).
Proof.
  unfold envelope_keys_distinct. cbn [distinct mem existsb].
  intros H.
  repeat match goal with
         | H : _ && _ = true |- _ => apply andb_prop in H; destruct H
         | H : negb _ = true |- _ => apply negb_true_iff in H
         | H : _ || _ = false |- _ => apply orb_false_iff in H; destruct H
         end.
  unfold ZMQRuntimeCaller.call, ZMQRuntimeCaller.can_bind.
  destruct (ZMQRuntimeCaller.bind_refusal w address) as [message|];
    cbn [fst snd ZMQRuntimeCaller.sockets].
  - eexists. exists (ZMQRuntimeCaller.command m action service version
                       targetAction (default_param (VArr []) params)
                       (default_param (VArr []) files)).
    eexists. eexists.
    split; [reflexivity|]. split; [reflexivity|].
    split; [discriminate|].
    split; [intros _; exists message; reflexivity|].
    split; [unfold ZMQRuntimeCaller.command, literal at 1; own_property|].
    split; [unfold literal at 1; own_property|].
    split; [unfold literal at 1; own_property|].
    repeat split; unfold literal; own_property.
  - eexists. eexists. eexists. eexists.
    split; [reflexivity|]. split; [reflexivity|].
    split; [reflexivity|].
    split; [discriminate|].
    split; [unfold ZMQRuntimeCaller.command, literal at 1; own_property|].
    split; [unfold literal at 1; own_property|].
    split; [unfold literal at 1; own_property|].
    repeat split; unfold literal; own_property.
Qed.

Lemma call_sends_envelope_witness :
  envelope_keys_distinct spec_mappings = true
  /\ exists socket envelope command arguments,
       ZMQRuntimeCaller.sockets
         (fst (ZMQRuntimeCaller.call spec_mappings length_codec
                 (ZMQRuntimeCaller.boot false) some_action "users" "1.0" "read"
                 "ipc://@reply" VUndefined VUndefined None))
       = (ZMQRuntimeCaller.sockets (ZMQRuntimeCaller.boot false) ++ [socket])%list
       /\ ZMQRuntimeCaller.socket_sent socket
          = (if ZMQRuntimeCaller.can_bind (ZMQRuntimeCaller.boot false)
                  "ipc://@reply"
             then [[ZMQRuntimeCaller.FString
                      (String (ascii_of_nat 1) EmptyString);
                    ZMQRuntimeCaller.FBuffer
                      (ZMQRuntimeCaller.pack length_codec envelope)]]
             else [])
       /\ (ZMQRuntimeCaller.can_bind (ZMQRuntimeCaller.boot false)
             "ipc://@reply" = true ->
           snd (ZMQRuntimeCaller.call spec_mappings length_codec
                  (ZMQRuntimeCaller.boot false) some_action "users" "1.0"
                  "read" "ipc://@reply" VUndefined VUndefined None) = Ok tt)
       /\ (ZMQRuntimeCaller.can_bind (ZMQRuntimeCaller.boot false)
             "ipc://@reply" = false ->
           exists message,
             snd (ZMQRuntimeCaller.call spec_mappings length_codec
                    (ZMQRuntimeCaller.boot false) some_action "users" "1.0"
                    "read" "ipc://@reply" VUndefined VUndefined None)
             = Throw (Error message))
       /\ get example_engine envelope (m_command spec_mappings) = Ok command
       /\ get example_engine command (m_name spec_mappings)
          = Ok (VStr "runtime-call")
       /\ get example_engine command (m_arguments spec_mappings) = Ok arguments
       /\ get example_engine arguments (m_action spec_mappings)
          = Ok (ZMQRuntimeCaller.action_self some_action)
       /\ get example_engine arguments (m_callee spec_mappings)
          = Ok (VArr [VStr "users"; VStr "1.0"; VStr "read"])
       /\ get example_engine arguments (m_transport spec_mappings)
          = Ok (ZMQRuntimeCaller.action_transport some_action)
       /\ get example_engine arguments (m_params spec_mappings)
          = Ok (default_param (VArr []) VUndefined)
       /\ get example_engine arguments (m_files spec_mappings)
          = Ok (default_param (VArr []) VUndefined).
Proof.
  split.
  - reflexivity.
  - apply (call_sends_envelope example_engine spec_mappings length_codec
             (ZMQRuntimeCaller.boot false) some_action "users" "1.0" "read"
             "ipc://@reply" VUndefined VUndefined None).
    reflexivity.
Defined.

(** C6. When the timer of a call expires, its callback throws the error that
    names the service, the version and the action; [call] has returned long
    before, so the error is caught by no frame of the caller: it reaches the
    event loop, the action's entry point is not called, and the process ends
    unless the host handles uncaught exceptions. *)
Theorem timeout_escapes_to_event_loop (m : Mappings)
  (codec : ZMQRuntimeCaller.Codec) (handles_uncaught : bool)
  (action : ZMQRuntimeCaller.Action)
  (service version targetAction address : string) (params files : value)
  (timeout : option Z) :
  let called :=
    ZMQRuntimeCaller.call m codec (ZMQRuntimeCaller.boot handles_uncaught)
      action service version targetAction address params files timeout in
  let expired :=
    ZMQRuntimeCaller.dispatch codec (fst called)
      (ZMQRuntimeCaller.TimerExpired 1) in
  snd called = Ok tt
  /\ ZMQRuntimeCaller.alive (fst called) = true
  /\ ZMQRuntimeCaller.uncaught (fst called) = []
  /\ ZMQRuntimeCaller.uncaught expired
     = [Error ("Run-time call timed out for " ++ service ++ " (" ++ version
               ++ ") " ++ dquote ++ targetAction ++ dquote)]
  /\ ZMQRuntimeCaller.processed expired = []
  /\ ZMQRuntimeCaller.alive expired = handles_uncaught.
Proof.
  repeat split; reflexivity.
Qed.

(** C5. A reply that comes after the timer has expired, in a process that
    outlives the uncaught timeout error, is decoded and handed to the
    action: the timeout callback leaves the socket bound with its listener,
    so the call ends with both outcomes. *)
Theorem late_reply_is_delivered (m : Mappings)
  (codec : ZMQRuntimeCaller.Codec) (action : ZMQRuntimeCaller.Action)
  (service version targetAction address : string) (params files : value)
  (timeout : option Z) (response : list Byte.byte) :
  let called :=
    ZMQRuntimeCaller.call m codec (ZMQRuntimeCaller.boot true)
      action service version targetAction address params files timeout in
  let ended :=
    ZMQRuntimeCaller.run codec (fst called)
      [ZMQRuntimeCaller.TimerExpired 1; ZMQRuntimeCaller.Message 0 response] in
  snd called = Ok tt
  /\ ZMQRuntimeCaller.processed ended
     = match ZMQRuntimeCaller.unpack codec response with
       | Ok payload => [(action, payload)]
       | Throw _ => []
       end
  /\ ZMQRuntimeCaller.uncaught ended
     = ZMQRuntimeCaller.timeout_error service version targetAction
       :: match ZMQRuntimeCaller.unpack codec response with
          | Ok _ => []
          | Throw x => [x]
          end.
Proof.
  cbv zeta. split; [reflexivity|].
  unfold ZMQRuntimeCaller.run. cbn [fold_left].
  unfold ZMQRuntimeCaller.dispatch at 2. cbn.
  unfold ZMQRuntimeCaller._parseReply. cbn.
  destruct (ZMQRuntimeCaller.unpack codec response); split; reflexivity.
Qed.

(** The reply that comes first disarms the timer and is handed to the
    action once; the expiry that would have followed does nothing. *)
Lemma reply_cancels_timer (m : Mappings) (codec : ZMQRuntimeCaller.Codec)
  (handles_uncaught : bool) (action : ZMQRuntimeCaller.Action)
  (service version targetAction address : string) (params files : value)
  (timeout : option Z) (response : list Byte.byte) (payload : value) :
  ZMQRuntimeCaller.unpack codec response = Ok payload ->
  let called :=
    fst (ZMQRuntimeCaller.call m codec (ZMQRuntimeCaller.boot handles_uncaught)
           action service version targetAction address params files timeout) in
  let replied :=
    ZMQRuntimeCaller.dispatch codec called (ZMQRuntimeCaller.Message 0 response) in
  ZMQRuntimeCaller.timers called <> []
  /\ ZMQRuntimeCaller.timers replied = []
  /\ ZMQRuntimeCaller.processed replied = [(action, payload)]
  /\ ZMQRuntimeCaller.dispatch codec replied (ZMQRuntimeCaller.TimerExpired 1)
     = replied.
Proof.
  intros H. cbv zeta.
  unfold ZMQRuntimeCaller.dispatch, ZMQRuntimeCaller._parseReply. cbn.
  rewrite H. cbn.
  repeat split; try reflexivity. discriminate.
Qed.

Example late_reply :
  let called :=
    fst (ZMQRuntimeCaller.call spec_mappings length_codec
           (ZMQRuntimeCaller.boot true) some_action "users" "1.0" "read"
           "ipc://@reply" VUndefined VUndefined (Some 50%Z)) in
  let ended :=
    ZMQRuntimeCaller.run length_codec called
      [ZMQRuntimeCaller.TimerExpired 1;
       ZMQRuntimeCaller.Message 0 [Byte.x01; Byte.x02]] in
  ZMQRuntimeCaller.processed ended = [(some_action, VNum 2)]
  /\ ZMQRuntimeCaller.uncaught ended
     = [Error ("Run-time call timed out for users (1.0) "
               ++ dquote ++ "read" ++ dquote)]
  /\ map ZMQRuntimeCaller.socket_bound (ZMQRuntimeCaller.sockets ended)
     = [["ipc://@reply"]].
Proof. repeat split; reflexivity. Qed.

(** Two calls that overlap on one caller share [_action] and [_timeout]: the
    reply to the first disarms the timer of the second and is handed to the
    action of the second, and the timer of the first still expires. *)
Example overlapping_calls :
  let first :=
    fst (ZMQRuntimeCaller.call spec_mappings length_codec
           (ZMQRuntimeCaller.boot true) some_action "users" "1.0" "read"
           "ipc://@first" VUndefined VUndefined (Some 50%Z)) in
  let second :=
    fst (ZMQRuntimeCaller.call spec_mappings length_codec first other_action
           "posts" "2.0" "list" "ipc://@second" VUndefined VUndefined None) in
  let replied :=
    ZMQRuntimeCaller.dispatch length_codec second
      (ZMQRuntimeCaller.Message 0 [Byte.x07]) in
  let ended :=
    ZMQRuntimeCaller.dispatch length_codec replied
      (ZMQRuntimeCaller.TimerExpired 1) in
  map ZMQRuntimeCaller.timer_handle (ZMQRuntimeCaller.timers second) = [1; 2]%nat
  /\ map ZMQRuntimeCaller.timer_handle (ZMQRuntimeCaller.timers replied) = [1]%nat
  /\ ZMQRuntimeCaller.processed replied = [(other_action, VNum 1)]
  /\ ZMQRuntimeCaller.uncaught ended
     = [ZMQRuntimeCaller.timeout_error "users" "1.0" "read"].
Proof. repeat split; reflexivity. Qed.

(** A second call on an address the caller still holds throws at the
    binding: the action is replaced, no timer is armed and nothing is sent;
    a reply on the first socket then disarms the first timer and is handed
    to the action of the second call. *)
Example call_on_held_address :
  let first :=
    fst (ZMQRuntimeCaller.call spec_mappings length_codec
           (ZMQRuntimeCaller.boot true) some_action "users" "1.0" "read"
           "ipc://@reply" VUndefined VUndefined (Some 50%Z)) in
  let second :=
    ZMQRuntimeCaller.call spec_mappings length_codec first other_action
      "posts" "2.0" "list" "ipc://@reply" VUndefined VUndefined None in
  let replied :=
    ZMQRuntimeCaller.dispatch length_codec (fst second)
      (ZMQRuntimeCaller.Message 0 [Byte.x07]) in
  snd second = Throw (Error "Address already in use")
  /\ map ZMQRuntimeCaller.timer_handle (ZMQRuntimeCaller.timers (fst second))
     = [1]%nat
  /\ map ZMQRuntimeCaller.socket_sent (ZMQRuntimeCaller.sockets (fst second))
     = [[[ZMQRuntimeCaller.control_frame; ZMQRuntimeCaller.FBuffer []]]; []]
  /\ ZMQRuntimeCaller.timers replied = []
  /\ ZMQRuntimeCaller.processed replied = [(other_action, VNum 1)].
Proof. repeat split; reflexivity. Qed.

(** ** Further properties of the action schema *)

(** X1. [hasCall] and [hasDeferCall] answer [false] when the declared calls
    are an array whose entries can be read for the fields of a call (so none
    is [null] or [undefined]), whatever the query, and throw a TypeError in
    every other case. *)
Theorem hasCall_false_or_TypeError (e : Engine) (this : obj) (name : string)
  (version action : option string) :
  ActionSchema.hasCall e this name version action
  = (if filterable e call_fields (ActionSchema.getCalls this)
     then Ok false else Throw TypeError)
  /\ ActionSchema.hasDeferCall e this name version action
     = (if filterable e call_fields (ActionSchema.getDeferCalls this)
        then Ok false else Throw TypeError).
Proof.
  split; apply _hasCalls_exact.
Qed.

(** X2. [hasRemoteCall] answers [false] when the declared remote calls are
    an array whose entries can be read for the fields of a remote call (so
    none is [null] or [undefined]), whatever the address and the filters,
    and throws a TypeError in every other case. *)
Theorem hasRemoteCall_false_or_TypeError (e : Engine) (this : obj)
  (address : string) (name version action : option string) :
  ActionSchema.hasRemoteCall e this address name version action
  = if filterable e remote_call_fields (ActionSchema.getRemoteCalls this)
    then Ok false else Throw TypeError.
Proof.
  unfold ActionSchema.hasRemoteCall, ActionSchema.getRemoteCalls, filterable.
  destruct (as_array e (ActionSchema.field this "_remoteCalls")) as [l|x] eqn:E;
    cbn [bind].
  - rewrite (filterM_exact
               (ActionSchema.remote_call_matches e address name version action)
               (fun x => forallb (readable e x) remote_call_fields)).
    + destruct (forallb _ l); reflexivity.
    + intros x. apply remote_call_matches_cases.
    + intros x. apply remote_call_matches_cases.
  - rewrite as_array_cases in E.
    destruct (array_like e (ActionSchema.field this "_remoteCalls"));
      [discriminate E | injection E as <-; reflexivity].
Qed.

Example entries_that_cannot_be_read :
  filterable example_engine call_fields (VArr [declared_call]) = true
  /\ filterable example_engine call_fields (VArr [declared_call; VNull]) = false
  /\ filterable example_engine call_fields (VArr [VUndefined]) = false
  /\ filterable example_engine call_fields (VBool false) = false
  /\ filterable example_engine call_fields (VArr [VNum 3; VStr "a"]) = true.
Proof. repeat split; reflexivity. Qed.

(** X3. [fromMapping] returns exactly on the mappings whose properties it
    can read (the mapping is not [null] or [undefined]), whose params and
    files are not [null] and whose relations are an array or left out; on
    every other mapping it throws a TypeError.  No resolution error is
    raised while a schema is built. *)
Theorem fromMapping_parses_or_TypeError (e : Engine) (m : Mappings)
  (sub : SubSchemas) (name : string) (mapping : value) :
  ActionSchema.fromMapping e m sub name mapping
  = if loadable e m mapping then Ok (parsed e m sub name mapping)
    else Throw TypeError.
Proof.
  destruct (loadable e m mapping) eqn:L.
  - apply fromMapping_loadable. exact L.
  - rewrite fromMapping_cases, L. reflexivity.
Qed.

Example not_loadable :
  ActionSchema.fromMapping example_engine spec_mappings spec_subschemas "act"
    VUndefined = Throw TypeError
  /\ ActionSchema.fromMapping example_engine spec_mappings spec_subschemas "act"
       (VObj [("params", VNull)]) = Throw TypeError
  /\ ActionSchema.fromMapping example_engine spec_mappings spec_subschemas "act"
       (VObj [("relations", VObj [])]) = Throw TypeError
  /\ loadable example_engine spec_mappings (VObj [("files", VArr [VObj []])])
     = true.
Proof. repeat split; reflexivity. Qed.

Lemma to_uint_not_Nil (n : nat) : Nat.to_uint n <> Nil.
Proof.
  rewrite <- (Unsigned.of_to n) at 1. rewrite Unsigned.to_of.
  apply unorm_nonnil.
Qed.

Lemma array_index_string_of_nat (n : nat) :
  array_index (string_of_nat n) = Some n.
Proof.
  unfold array_index, string_of_nat.
  assert (E : NilZero.uint_of_string (NilEmpty.string_of_uint (Nat.to_uint n))
              = Some (Nat.to_uint n)).
  { pose proof (to_uint_not_Nil n) as Hn.
    pose proof (NilEmpty.usu (Nat.to_uint n)) as Hu.
    destruct (Nat.to_uint n); try (exact Hu). contradiction Hn. reflexivity. }
  rewrite E. rewrite Unsigned.of_to. rewrite String.eqb_refl. reflexivity.
Qed.

Lemma mapM_map_total {A B C : Type} (f : B -> result C) (g : A -> B)
  (h : A -> C) (l : list A) :
  (forall a, f (g a) = Ok (h a)) -> mapM f (map g l) = Ok (map h l).
Proof.
  intros H. induction l as [|a l IH]; simpl.
  - reflexivity.
  - rewrite H, IH. reflexivity.
Qed.

Lemma existsb_is_string (name : string) (l : list string) :
  existsb (is_string name) (map VStr l) = mem name l.
Proof.
  unfold mem. induction l as [|k l IH]; simpl.
  - reflexivity.
  - rewrite IH. reflexivity.
Qed.

(** X4. In a schema built by [fromMapping], with param schemas that keep
    their name in [_name], [getParams] is the list of the keys of the
    mapping's params, in their order, and [hasParam] tells whether a name is
    one of these keys. *)
Theorem params_are_the_keys (e : Engine) (m : Mappings) (sub : SubSchemas)
  (name : string) (mapping : value) (this : obj) (param : string) :
  (forall n v, get e (ParamSchema_fromMapping sub n v) "_name" = Ok (VStr n)) ->
  ActionSchema.fromMapping e m sub name mapping = Ok this ->
  ActionSchema.getParams e this
  = Ok (map VStr (key_list e (property e mapping (m_params m) (VObj []))))
  /\ ActionSchema.hasParam e this param
     = Ok (mem param (key_list e (property e mapping (m_params m) (VObj [])))).
Proof.
  intros Hname H. apply fromMapping_returns in H. destruct H as [_ ->].
  assert (E : ActionSchema.getParams e (parsed e m sub name mapping)
              = Ok (map VStr
                      (key_list e (property e mapping (m_params m) (VObj []))))).
  { unfold ActionSchema.getParams. read_field. cbn [as_array bind].
    apply mapM_map_total. intros k. apply Hname. }
  split; [exact E|].
  unfold ActionSchema.hasParam. rewrite E. cbn [bind].
  rewrite existsb_is_string. reflexivity.
Qed.

Lemma params_are_the_keys_witness :
  ((forall n v,
      get example_engine (ParamSchema_fromMapping spec_subschemas n v) "_name"
      = Ok (VStr n))
   /\ ActionSchema.fromMapping example_engine spec_mappings spec_subschemas
        "act" params_mapping
      = Ok (parsed example_engine spec_mappings spec_subschemas "act"
              params_mapping))
  /\ ActionSchema.getParams example_engine
       (parsed example_engine spec_mappings spec_subschemas "act" params_mapping)
     = Ok (map VStr
             (key_list example_engine
                (property example_engine params_mapping
                   (m_params spec_mappings) (VObj []))))
  /\ ActionSchema.hasParam example_engine
       (parsed example_engine spec_mappings spec_subschemas "act" params_mapping)
       "limit"
     = Ok (mem "limit"
             (key_list example_engine
                (property example_engine params_mapping
                   (m_params spec_mappings) (VObj [])))).
Proof.
  split.
  - split; [intros n v; reflexivity | reflexivity].
  - apply (params_are_the_keys example_engine spec_mappings spec_subschemas
             "act" params_mapping).
    + intros n v. reflexivity.
    + reflexivity.
Defined.

(** X5. In a schema built by [fromMapping] the files are addressed by
    position: [getFiles] lists the indices ["0"], ["1"], ... of the declared
    files, and [getFileSchema] of the index [i] returns the schema built for
    the [i]-th declared file. *)
Theorem files_are_indexed (e : Engine) (m : Mappings) (sub : SubSchemas)
  (name : string) (mapping : value) (this : obj) (i : nat) (file : string) :
  ActionSchema.fromMapping e m sub name mapping = Ok this ->
  nth_error (key_list e (property e mapping (m_files m) (VArr []))) i
  = Some file ->
  is_undefined
    (FileSchema_fromMapping sub file
       (value_at e (property e mapping (m_files m) (VArr [])) file)) = false ->
  ActionSchema.getFiles e this
  = Ok (map string_of_nat
          (seq 0 (List.length
                    (key_list e (property e mapping (m_files m) (VArr []))))))
  /\ ActionSchema.hasFile e this (string_of_nat i) = Ok true
  /\ ActionSchema.getFileSchema e this (string_of_nat i)
     = Ok (FileSchema_fromMapping sub file
             (value_at e (property e mapping (m_files m) (VArr [])) file)).
Proof.
  intros H Hi Hu. apply fromMapping_returns in H. destruct H as [_ ->].
  set (files := property e mapping (m_files m) (VArr [])) in *.
  set (build := fun k => FileSchema_fromMapping sub k (value_at e files k)).
  assert (F : ActionSchema.field (parsed e m sub name mapping) "_files"
              = VArr (map build (key_list e files))).
  { read_field. reflexivity. }
  assert (G : get e (VArr (map build (key_list e files))) (string_of_nat i)
              = Ok (build file)).
  { unfold get. rewrite array_index_string_of_nat.
    rewrite nth_error_map, Hi. reflexivity. }
  split.
  { unfold ActionSchema.getFiles. rewrite F. cbn [keys].
    rewrite length_map. reflexivity. }
  assert (E : ActionSchema.hasFile e (parsed e m sub name mapping)
                (string_of_nat i) = Ok true).
  { unfold ActionSchema.hasFile. rewrite F, G. cbn [bind].
    unfold build. rewrite Hu. reflexivity. }
  split; [exact E|].
  unfold ActionSchema.getFileSchema. rewrite E. cbn [bind negb].
  rewrite F. exact G.
Qed.

Lemma files_are_indexed_witness :
  (ActionSchema.fromMapping example_engine spec_mappings spec_subschemas "act"
     two_files_mapping
   = Ok (parsed example_engine spec_mappings spec_subschemas "act"
           two_files_mapping)
   /\ nth_error
        (key_list example_engine
           (property example_engine two_files_mapping (m_files spec_mappings)
              (VArr [])))
        1 = Some "resume"
   /\ is_undefined
        (FileSchema_fromMapping spec_subschemas "resume"
           (value_at example_engine
              (property example_engine two_files_mapping
                 (m_files spec_mappings) (VArr []))
              "resume")) = false)
  /\ ActionSchema.getFiles example_engine
       (parsed example_engine spec_mappings spec_subschemas "act"
          two_files_mapping)
     = Ok (map string_of_nat
             (seq 0 (List.length
                       (key_list example_engine
                          (property example_engine two_files_mapping
                             (m_files spec_mappings) (VArr []))))))
  /\ ActionSchema.hasFile example_engine
       (parsed example_engine spec_mappings spec_subschemas "act"
          two_files_mapping)
       (string_of_nat 1) = Ok true
  /\ ActionSchema.getFileSchema example_engine
       (parsed example_engine spec_mappings spec_subschemas "act"
          two_files_mapping)
       (string_of_nat 1)
     = Ok (FileSchema_fromMapping spec_subschemas "resume"
             (value_at example_engine
                (property example_engine two_files_mapping
                   (m_files spec_mappings) (VArr []))
                "resume")).
Proof.
  split.
  - repeat split; reflexivity.
  - apply (files_are_indexed example_engine spec_mappings spec_subschemas "act"
             two_files_mapping); reflexivity.
Defined.

(** X6. On a schema constructed with files keyed by name, [getFiles] lists
    the names; [hasFile] is true for a name with a defined schema, and for a
    name that is not stored it is what the engine finds for the name on the
    prototype chain of objects; [getFileSchema] returns the schema stored
    under the name, and throws the resolution error naming the file when
    the name is neither stored nor found by the engine. *)
Theorem files_keyed_by_name (e : Engine)
  (name timeout entity fallback http deprecated params relations tags calls
   deferredCalls remoteCalls returnValue : value) (files : obj)
  (file : string) :
  let this :=
    ActionSchema.constructor name timeout entity fallback http deprecated
      params (VObj files) relations tags calls deferredCalls remoteCalls
      returnValue in
  ActionSchema.getFiles e this = Ok (map fst files)
  /\ ActionSchema.hasFile e this file
     = match lookup file files with
       | Some v => Ok (negb (is_undefined v))
       | None =>
           match member e OfObject file with
           | Some v => Ok (negb (is_undefined v))
           | None => Throw TypeError
           end
       end
  /\ (forall v, lookup file files = Some v -> is_undefined v = false ->
        ActionSchema.getFileSchema e this file = Ok v)
  /\ (forall v, lookup file files = None -> member e OfObject file = Some v ->
        is_undefined v = false ->
        ActionSchema.getFileSchema e this file = Ok v)
  /\ (lookup file files = None -> member e OfObject file = Some VUndefined ->
        ActionSchema.getFileSchema e this file
        = Throw (Error ("Cannot resolve schema for file parameter: " ++ file))).
Proof.
  cbv zeta.
  assert (H : ActionSchema.hasFile e
                (ActionSchema.constructor name timeout entity fallback http
                   deprecated params (VObj files) relations tags calls
                   deferredCalls remoteCalls returnValue) file
              = match lookup file files with
                | Some v => Ok (negb (is_undefined v))
                | None =>
                    match member e OfObject file with
                    | Some v => Ok (negb (is_undefined v))
                    | None => Throw TypeError
                    end
                end).
  { unfold ActionSchema.hasFile. read_field. unfold get, engine_answer.
    destruct (lookup file files); cbn [bind]; [reflexivity|].
    destruct (member e OfObject file); reflexivity. }
  split; [reflexivity|]. split; [exact H|]. split; [|split].
  - intros v Hv Hu. unfold ActionSchema.getFileSchema. rewrite H, Hv, Hu.
    cbn [bind negb]. read_field. unfold get. rewrite Hv. reflexivity.
  - intros v Hv Hm Hu. unfold ActionSchema.getFileSchema. rewrite H, Hv, Hm, Hu.
    cbn [bind negb]. read_field. unfold get. rewrite Hv, Hm. reflexivity.
  - intros Hv Hm. unfold ActionSchema.getFileSchema. rewrite H, Hv, Hm.
    reflexivity.
Qed.

Example files_by_name :
  ActionSchema.hasFile example_engine filed_schema "avatar" = Ok true
  /\ ActionSchema.getFileSchema example_engine filed_schema "avatar"
     = Ok (VObj [("_name", VStr "avatar")])
  /\ ActionSchema.hasFile example_engine filed_schema "resume" = Ok false
  /\ ActionSchema.hasFile example_engine filed_schema "__proto__" = Ok true
  /\ ActionSchema.getFileSchema example_engine filed_schema "__proto__"
     = Ok (VFun "Object.prototype").
Proof. repeat split; reflexivity. Qed.

(** X7. In a schema built by [fromMapping], [hasTag] tells whether the name
    is one of the strings of the mapping's tags, and it is false for every
    name when the mapping has no tags. *)
Theorem hasTag_after_fromMapping (e : Engine) (m : Mappings) (sub : SubSchemas)
  (name : string) (mapping : value) (this : obj) (tag : string) :
  ActionSchema.fromMapping e m sub name mapping = Ok this ->
  (forall tags, get e mapping (m_tags m) = Ok (VArr tags) ->
     ActionSchema.getTags this = VArr tags
     /\ ActionSchema.hasTag e this tag = Ok (existsb (is_string tag) tags))
  /\ (get e mapping (m_tags m) = Ok VUndefined ->
        ActionSchema.getTags this = VArr []
        /\ ActionSchema.hasTag e this tag = Ok false).
Proof.
  intros H. apply fromMapping_returns in H. destruct H as [_ ->].
  unfold ActionSchema.hasTag, ActionSchema.getTags. read_field.
  split.
  - intros tags Ht.
    rewrite (property_present _ _ _ _ (VArr tags) Ht eq_refl).
    split; reflexivity.
  - intros Ht. rewrite (property_absent _ _ _ _ Ht). split; reflexivity.
Qed.

Lemma hasTag_after_fromMapping_witness :
  ActionSchema.fromMapping example_engine spec_mappings spec_subschemas "act"
    tagged_mapping
  = Ok (parsed example_engine spec_mappings spec_subschemas "act" tagged_mapping)
  /\ (forall tags,
        get example_engine tagged_mapping (m_tags spec_mappings)
        = Ok (VArr tags) ->
        ActionSchema.getTags
          (parsed example_engine spec_mappings spec_subschemas "act"
             tagged_mapping)
        = VArr tags
        /\ ActionSchema.hasTag example_engine
             (parsed example_engine spec_mappings spec_subschemas "act"
                tagged_mapping) "beta"
           = Ok (existsb (is_string "beta") tags))
  /\ (get example_engine tagged_mapping (m_tags spec_mappings) = Ok VUndefined ->
        ActionSchema.getTags
          (parsed example_engine spec_mappings spec_subschemas "act"
             tagged_mapping)
        = VArr []
        /\ ActionSchema.hasTag example_engine
             (parsed example_engine spec_mappings spec_subschemas "act"
                tagged_mapping) "beta"
           = Ok false).
Proof.
  split.
  - reflexivity.
  - apply (hasTag_after_fromMapping example_engine spec_mappings
             spec_subschemas "act" tagged_mapping).
    reflexivity.
Defined.

Example hasTag_values :
  let this :=
    parsed example_engine spec_mappings spec_subschemas "act" tagged_mapping in
  ActionSchema.hasTag example_engine this "beta" = Ok true
  /\ ActionSchema.hasTag example_engine this "bet" = Ok false
  /\ ActionSchema.hasTag example_engine
       (parsed example_engine spec_mappings spec_subschemas "act"
          (VObj [("tags", VStr "public beta")])) "bet" = Ok true
  /\ ActionSchema.hasTag example_engine
       (parsed example_engine spec_mappings spec_subschemas "act"
          (VObj [("tags", VNum 3)])) "beta" = Throw TypeError.
Proof. repeat split; reflexivity. Qed.

(** X8. In a schema built by [fromMapping], with an entity that gives back
    the path and the delimiter it was made with, [getEntityPath] and
    [getPathDelimiter] return what the mapping has under [entity_path] and
    [path_delimiter], and the empty string and ["/"] where it has
    nothing. *)
Theorem entity_accessors_after_fromMapping (e : Engine) (m : Mappings)
  (sub : SubSchemas) (name : string) (mapping : value) (this : obj) :
  (forall p d k c x,
     is_nullish (ActionEntity_new sub p d k c x) = false
     /\ ActionEntity_getEntityPath sub (ActionEntity_new sub p d k c x) = Ok p
     /\ ActionEntity_getPathDelimiter sub (ActionEntity_new sub p d k c x)
        = Ok d) ->
  ActionSchema.fromMapping e m sub name mapping = Ok this ->
  ActionSchema.getEntityPath sub this
  = Ok (property e mapping (m_entity_path m) (VStr EmptyString))
  /\ ActionSchema.getPathDelimiter sub this
     = Ok (property e mapping (m_path_delimiter m) (VStr "/"))
  /\ (get e mapping (m_entity_path m) = Ok VUndefined ->
        ActionSchema.getEntityPath sub this = Ok (VStr EmptyString))
  /\ (get e mapping (m_path_delimiter m) = Ok VUndefined ->
        ActionSchema.getPathDelimiter sub this = Ok (VStr "/")).
Proof.
  intros He H. apply fromMapping_returns in H. destruct H as [_ ->].
  assert (P : ActionSchema.getEntityPath sub (parsed e m sub name mapping)
              = Ok (property e mapping (m_entity_path m) (VStr EmptyString))).
  { unfold ActionSchema.getEntityPath. read_field.
    match goal with
    | |- context [ActionEntity_new sub ?p ?d ?k ?c ?x] =>
        destruct (He p d k c x) as [Hn [Hp _]];
        destruct (ActionEntity_new sub p d k c x) eqn:E;
        try discriminate Hn; cbn [receiver bind]; exact Hp
    end. }
  assert (D : ActionSchema.getPathDelimiter sub (parsed e m sub name mapping)
              = Ok (property e mapping (m_path_delimiter m) (VStr "/"))).
  { unfold ActionSchema.getPathDelimiter. read_field.
    match goal with
    | |- context [ActionEntity_new sub ?p ?d ?k ?c ?x] =>
        destruct (He p d k c x) as [Hn [_ Hd]];
        destruct (ActionEntity_new sub p d k c x) eqn:E;
        try discriminate Hn; cbn [receiver bind]; exact Hd
    end. }
  split; [exact P|]. split; [exact D|]. split.
  - intros Ha. rewrite P, (property_absent _ _ _ _ Ha). reflexivity.
  - intros Ha. rewrite D, (property_absent _ _ _ _ Ha). reflexivity.
Qed.

Lemma entity_accessors_after_fromMapping_witness :
  ((forall p d k c x,
      is_nullish (ActionEntity_new spec_subschemas p d k c x) = false
      /\ ActionEntity_getEntityPath spec_subschemas
           (ActionEntity_new spec_subschemas p d k c x) = Ok p
      /\ ActionEntity_getPathDelimiter spec_subschemas
           (ActionEntity_new spec_subschemas p d k c x) = Ok d)
   /\ ActionSchema.fromMapping example_engine spec_mappings spec_subschemas
        "act" nested_mapping
      = Ok (parsed example_engine spec_mappings spec_subschemas "act"
              nested_mapping))
  /\ ActionSchema.getEntityPath spec_subschemas
       (parsed example_engine spec_mappings spec_subschemas "act" nested_mapping)
     = Ok (property example_engine nested_mapping
             (m_entity_path spec_mappings) (VStr EmptyString))
  /\ ActionSchema.getPathDelimiter spec_subschemas
       (parsed example_engine spec_mappings spec_subschemas "act" nested_mapping)
     = Ok (property example_engine nested_mapping
             (m_path_delimiter spec_mappings) (VStr "/"))
  /\ (get example_engine nested_mapping (m_entity_path spec_mappings)
      = Ok VUndefined ->
        ActionSchema.getEntityPath spec_subschemas
          (parsed example_engine spec_mappings spec_subschemas "act"
             nested_mapping)
        = Ok (VStr EmptyString))
  /\ (get example_engine nested_mapping (m_path_delimiter spec_mappings)
      = Ok VUndefined ->
        ActionSchema.getPathDelimiter spec_subschemas
          (parsed example_engine spec_mappings spec_subschemas "act"
             nested_mapping)
        = Ok (VStr "/")).
Proof.
  split.
  - split; [intros p d k c x; repeat split; reflexivity | reflexivity].
  - apply (entity_accessors_after_fromMapping example_engine spec_mappings
             spec_subschemas "act" nested_mapping).
    + intros p d k c x. repeat split; reflexivity.
    + reflexivity.
Defined.

(** X9. A schema constructed without params, or with params keyed by name
    as the constructor defaults them, cannot be asked for its params:
    [getParams], [hasParam] and [getParamSchema] throw a TypeError, since
    they map over [_params] as over an array. *)
Theorem params_must_be_an_array (e : Engine)
  (name timeout entity fallback http deprecated params files relations tags
   calls deferredCalls remoteCalls returnValue : value) (param : string) :
  array_like e (default_param (VObj []) params) = false ->
  let this :=
    ActionSchema.constructor name timeout entity fallback http deprecated
      params files relations tags calls deferredCalls remoteCalls
      returnValue in
  ActionSchema.getParams e this = Throw TypeError
  /\ ActionSchema.hasParam e this param = Throw TypeError
  /\ ActionSchema.getParamSchema e this param = Throw TypeError.
Proof.
  intros H. cbv zeta.
  assert (E : ActionSchema.getParams e
                (ActionSchema.constructor name timeout entity fallback http
                   deprecated params files relations tags calls deferredCalls
                   remoteCalls returnValue) = Throw TypeError).
  { unfold ActionSchema.getParams. read_field.
    rewrite as_array_cases, H. reflexivity. }
  split; [exact E|].
  assert (E' : ActionSchema.hasParam e
                 (ActionSchema.constructor name timeout entity fallback http
                    deprecated params files relations tags calls deferredCalls
                    remoteCalls returnValue) param = Throw TypeError).
  { unfold ActionSchema.hasParam. rewrite E. reflexivity. }
  split; [exact E'|].
  unfold ActionSchema.getParamSchema. rewrite E'. reflexivity.
Qed.

Lemma params_must_be_an_array_witness :
  array_like example_engine (default_param (VObj []) VUndefined) = false
  /\ ActionSchema.getParams example_engine bare_schema = Throw TypeError
  /\ ActionSchema.hasParam example_engine bare_schema "limit" = Throw TypeError
  /\ ActionSchema.getParamSchema example_engine bare_schema "limit"
     = Throw TypeError.
Proof.
  split.
  - reflexivity.
  - apply (params_must_be_an_array example_engine (VStr "act") VUndefined
             VUndefined VUndefined VUndefined VUndefined VUndefined VUndefined
             VUndefined VUndefined VUndefined VUndefined VUndefined VUndefined
             "limit").
    reflexivity.
Defined.

Lemma nest_defined (keys : list string) (leaf : value) :
  is_undefined leaf = false -> is_undefined (nest keys leaf) = false.
Proof. intros H. destruct keys; [exact H | reflexivity]. Qed.

Lemma descend_nest (e : Engine) (this : obj) (k : string) (v : value) :
  is_undefined v = false ->
  ActionSchema.descend e this (VObj [(k, v)]) k = Ok v.
Proof.
  intros H. unfold ActionSchema.descend, get. cbn [lookup].
  rewrite String.eqb_refl. cbn [bind]. rewrite H. reflexivity.
Qed.

Lemma descend_all_nest (e : Engine) (this : obj) (pre rest : list string)
  (v : value) :
  is_undefined v = false ->
  ActionSchema.descend_all e this (nest pre v) (pre ++ rest)
  = ActionSchema.descend_all e this v rest.
Proof.
  intros H. induction pre as [|k pre IH].
  - reflexivity.
  - rewrite <- app_comm_cons. cbn [nest ActionSchema.descend_all].
    rewrite (descend_nest e this k (nest pre v) (nest_defined pre v H)).
    cbn [bind]. exact IH.
Qed.

Lemma resolveEntity_with_path (e : Engine) (this : obj)
  (path delimiter : string) (data : value) :
  ActionSchema.field this "_entityPath" = VStr path ->
  String.eqb path EmptyString = false ->
  ActionSchema.field this "_pathDelimiter" = VStr delimiter ->
  ActionSchema.resolveEntity e this data
  = ActionSchema.descend_all e this data (split delimiter path).
Proof.
  intros Hp Hne Hd. unfold ActionSchema.resolveEntity. rewrite Hp, Hd.
  cbn [truthy]. rewrite Hne. reflexivity.
Qed.

(** X10. With a non-empty entity path and a delimiter in the fields
    [resolveEntity] reads, it goes down the data one segment of the path at
    a time: on the data that holds a value under the segments, nested in
    their order, it returns that value. *)
Theorem resolveEntity_descends (e : Engine) (this : obj)
  (path delimiter : string) (leaf : value) :
  ActionSchema.field this "_entityPath" = VStr path ->
  String.eqb path EmptyString = false ->
  ActionSchema.field this "_pathDelimiter" = VStr delimiter ->
  is_undefined leaf = false ->
  ActionSchema.resolveEntity e this (nest (split delimiter path) leaf)
  = Ok leaf.
Proof.
  intros Hp Hne Hd Hl.
  rewrite (resolveEntity_with_path e this path delimiter _ Hp Hne Hd).
  rewrite <- (List.app_nil_r (split delimiter path)) at 2.
  rewrite (descend_all_nest e this _ [] leaf Hl). reflexivity.
Qed.

Lemma resolveEntity_descends_witness :
  (ActionSchema.field pathed_schema "_entityPath" = VStr "a/b"
   /\ String.eqb "a/b" EmptyString = false
   /\ ActionSchema.field pathed_schema "_pathDelimiter" = VStr "/"
   /\ is_undefined (VObj [("x", VNum 1)]) = false)
  /\ ActionSchema.resolveEntity example_engine pathed_schema
       (nest (split "/" "a/b") (VObj [("x", VNum 1)]))
     = Ok (VObj [("x", VNum 1)]).
Proof.
  split.
  - repeat split; reflexivity.
  - apply (resolveEntity_descends example_engine pathed_schema "a/b" "/"
             (VObj [("x", VNum 1)]));
      reflexivity.
Defined.

(** X11. With a non-empty entity path and a delimiter in the fields
    [resolveEntity] reads, data that holds the first segments of the path
    and then an object in which the next segment is neither stored nor
    found by the engine makes it throw the error [Cannot resolve entity for
    action:] followed by the name of the action as a string (or what the
    conversion of the name throws). *)
Theorem resolveEntity_missing_segment (e : Engine) (this : obj)
  (path delimiter : string) (found : list string) (missing : string)
  (rest : list string) (last : obj) :
  ActionSchema.field this "_entityPath" = VStr path ->
  String.eqb path EmptyString = false ->
  ActionSchema.field this "_pathDelimiter" = VStr delimiter ->
  split delimiter path = (found ++ missing :: rest)%list ->
  lookup missing last = None ->
  member e OfObject missing = Some VUndefined ->
  ActionSchema.resolveEntity e this (nest found (VObj last))
  = match to_string e (ActionSchema.getName this) with
    | Ok shown => Throw (Error ("Cannot resolve entity for action: " ++ shown))
    | Throw x => Throw x
    end.
Proof.
  intros Hp Hne Hd Hs Hl Hm.
  rewrite (resolveEntity_with_path e this path delimiter _ Hp Hne Hd).
  rewrite Hs. rewrite (descend_all_nest e this found _ (VObj last) eq_refl).
  cbn [ActionSchema.descend_all]. unfold ActionSchema.descend, get.
  rewrite Hl, Hm. cbn [engine_answer bind is_undefined].
  unfold ActionSchema.resolution_error.
  destruct (to_string e (ActionSchema.getName this)); reflexivity.
Qed.

Lemma resolveEntity_missing_segment_witness :
  (ActionSchema.field pathed_schema "_entityPath" = VStr "a/b"
   /\ String.eqb "a/b" EmptyString = false
   /\ ActionSchema.field pathed_schema "_pathDelimiter" = VStr "/"
   /\ split "/" "a/b" = (["a"] ++ "b" :: [])%list
   /\ lookup "b" [] = None
   /\ member example_engine OfObject "b" = Some VUndefined)
  /\ ActionSchema.resolveEntity example_engine pathed_schema
       (nest ["a"] (VObj []))
     = match to_string example_engine (ActionSchema.getName pathed_schema) with
       | Ok shown =>
           Throw (Error ("Cannot resolve entity for action: " ++ shown))
       | Throw x => Throw x
       end.
Proof.
  split.
  - repeat split; reflexivity.
  - apply (resolveEntity_missing_segment example_engine pathed_schema "a/b" "/"
             ["a"] "b" [] []); reflexivity.
Defined.

Example resolveEntity_on_pathed :
  ActionSchema.resolveEntity example_engine pathed_schema nested_data
  = Ok (VObj [("x", VNum 1)])
  /\ ActionSchema.resolveEntity example_engine pathed_schema
       (VObj [("a", VObj [])])
     = Throw (Error "Cannot resolve entity for action: act")
  /\ ActionSchema.resolveEntity example_engine
       (assign (assign bare_schema "_entityPath" (VStr "a/__proto__"))
          "_pathDelimiter" (VStr "/"))
       (VObj [("a", VObj [])])
     = Ok (VFun "Object.prototype").
Proof. repeat split; reflexivity. Qed.

Lemma map_indexed_length {B : Type} (f : value -> nat -> list value -> B)
  (l : list value) :
  List.length (map_indexed f l) = List.length l.
Proof.
  unfold map_indexed. rewrite length_map, length_combine, length_seq.
  apply Nat.min_id.
Qed.

(** X12. In a schema built by [fromMapping], [getName] is the name
    [fromMapping] was given and [getRelations] is an array with one entry
    for each relation of the mapping, and the empty array when the mapping
    has no relations. *)
Theorem name_and_relations_after_fromMapping (e : Engine) (m : Mappings)
  (sub : SubSchemas) (name : string) (mapping : value) (this : obj) :
  ActionSchema.fromMapping e m sub name mapping = Ok this ->
  ActionSchema.getName this = VStr name
  /\ exists relations,
       ActionSchema.getRelations this = VArr relations
       /\ (forall declared,
             get e mapping (m_relations m) = Ok (VArr declared) ->
             List.length relations = List.length declared)
       /\ (get e mapping (m_relations m) = Ok VUndefined -> relations = []).
Proof.
  intros H. apply fromMapping_returns in H. destruct H as [_ ->].
  split; [reflexivity|].
  eexists. split.
  - unfold ActionSchema.getRelations. read_field. reflexivity.
  - split.
    + intros declared Hr.
      rewrite (property_present _ _ _ _ (VArr declared) Hr eq_refl).
      apply map_indexed_length.
    + intros Hr. rewrite (property_absent _ _ _ _ Hr). reflexivity.
Qed.

Lemma name_and_relations_after_fromMapping_witness :
  ActionSchema.fromMapping example_engine spec_mappings spec_subschemas "act"
    tagged_mapping
  = Ok (parsed example_engine spec_mappings spec_subschemas "act" tagged_mapping)
  /\ ActionSchema.getName
       (parsed example_engine spec_mappings spec_subschemas "act" tagged_mapping)
     = VStr "act"
  /\ exists relations,
       ActionSchema.getRelations
         (parsed example_engine spec_mappings spec_subschemas "act"
            tagged_mapping)
       = VArr relations
       /\ (forall declared,
             get example_engine tagged_mapping (m_relations spec_mappings)
             = Ok (VArr declared) ->
             List.length relations = List.length declared)
       /\ (get example_engine tagged_mapping (m_relations spec_mappings)
           = Ok VUndefined ->
           relations = []).
Proof.
  split.
  - reflexivity.
  - apply (name_and_relations_after_fromMapping example_engine spec_mappings
             spec_subschemas "act" tagged_mapping).
    reflexivity.
Defined.

(** ** Further properties of the run-time caller *)

Lemma unref_keeps (sid : nat) (ss : list ZMQRuntimeCaller.Socket) :
  map ZMQRuntimeCaller.socket_bound (ZMQRuntimeCaller.unref sid ss)
  = map ZMQRuntimeCaller.socket_bound ss
  /\ map ZMQRuntimeCaller.socket_sent (ZMQRuntimeCaller.unref sid ss)
     = map ZMQRuntimeCaller.socket_sent ss.
Proof.
  unfold ZMQRuntimeCaller.unref. generalize 0%nat as start.
  induction ss as [|s ss IH]; intros start; cbn [List.length seq combine map].
  - split; reflexivity.
  - destruct (IH (S start)) as [IHb IHs]. rewrite IHb, IHs.
    cbn [fst snd]. destruct (Nat.eqb start sid); split; reflexivity.
Qed.

Lemma dispatch_keeps_sockets (codec : ZMQRuntimeCaller.Codec)
  (w : ZMQRuntimeCaller.World) (ev : ZMQRuntimeCaller.event) :
  map ZMQRuntimeCaller.socket_bound
    (ZMQRuntimeCaller.sockets (ZMQRuntimeCaller.dispatch codec w ev))
  = map ZMQRuntimeCaller.socket_bound (ZMQRuntimeCaller.sockets w)
  /\ map ZMQRuntimeCaller.socket_sent
       (ZMQRuntimeCaller.sockets (ZMQRuntimeCaller.dispatch codec w ev))
     = map ZMQRuntimeCaller.socket_sent (ZMQRuntimeCaller.sockets w).
Proof.
  unfold ZMQRuntimeCaller.dispatch.
  destruct (ZMQRuntimeCaller.alive w); cbn [negb]; [|split; reflexivity].
  destruct ev as [sid response|h].
  - destruct (ZMQRuntimeCaller.listening w sid); [|split; reflexivity].
    unfold ZMQRuntimeCaller._parseReply.
    destruct (ZMQRuntimeCaller._action w); [|split; reflexivity].
    destruct (ZMQRuntimeCaller.unpack codec response); split; reflexivity.
  - destruct (find _ (ZMQRuntimeCaller.timers w)) as [t|]; [|split; reflexivity].
    unfold ZMQRuntimeCaller.on_timeout, ZMQRuntimeCaller.escape.
    cbn [ZMQRuntimeCaller.sockets]. apply unref_keeps.
Qed.

(** X13. The caller never releases an endpoint and never sends again:
    through every sequence of reply frames and timer expiries, each socket
    keeps the address it was bound to and the one message it has sent. *)
Theorem sockets_stay_bound (codec : ZMQRuntimeCaller.Codec)
  (w : ZMQRuntimeCaller.World) (evs : list ZMQRuntimeCaller.event) :
  map ZMQRuntimeCaller.socket_bound
    (ZMQRuntimeCaller.sockets (ZMQRuntimeCaller.run codec w evs))
  = map ZMQRuntimeCaller.socket_bound (ZMQRuntimeCaller.sockets w)
  /\ map ZMQRuntimeCaller.socket_sent
       (ZMQRuntimeCaller.sockets (ZMQRuntimeCaller.run codec w evs))
     = map ZMQRuntimeCaller.socket_sent (ZMQRuntimeCaller.sockets w).
Proof.
  unfold ZMQRuntimeCaller.run. revert w.
  induction evs as [|ev evs IH]; intros w; cbn [fold_left].
  - split; reflexivity.
  - destruct (IH (ZMQRuntimeCaller.dispatch codec w ev)) as [Hb Hs].
    destruct (dispatch_keeps_sockets codec w ev) as [Hb' Hs'].
    rewrite Hb, Hs, Hb', Hs'. split; reflexivity.
Qed.

Lemma dispatch_delivers (codec : ZMQRuntimeCaller.Codec)
  (w : ZMQRuntimeCaller.World) (ev : ZMQRuntimeCaller.event) :
  exists delivered,
    ZMQRuntimeCaller.processed (ZMQRuntimeCaller.dispatch codec w ev)
    = (ZMQRuntimeCaller.processed w ++ delivered)%list
    /\ (List.length delivered <= if is_message ev then 1 else 0)%nat.
Proof.
  unfold ZMQRuntimeCaller.dispatch.
  destruct (ZMQRuntimeCaller.alive w); cbn [negb].
  2:{ exists []. rewrite List.app_nil_r. split; [reflexivity|simpl; lia]. }
  destruct ev as [sid response|h]; cbn [is_message].
  - destruct (ZMQRuntimeCaller.listening w sid).
    2:{ exists []. rewrite List.app_nil_r. split; [reflexivity|simpl; lia]. }
    unfold ZMQRuntimeCaller._parseReply.
    destruct (ZMQRuntimeCaller._action w) as [a|].
    2:{ exists []. rewrite List.app_nil_r. split; [reflexivity|simpl; lia]. }
    destruct (ZMQRuntimeCaller.unpack codec response) as [payload|x].
    + exists [(a, payload)]. split; [reflexivity|simpl; lia].
    + exists []. rewrite List.app_nil_r. split; [reflexivity|simpl; lia].
  - destruct (find _ (ZMQRuntimeCaller.timers w));
      exists []; rewrite List.app_nil_r; (split; [reflexivity|simpl; lia]).
Qed.

(** X14. The action's entry point is called at most once for each reply
    frame and never by a timer: through every sequence of events, what was
    handed to the actions before stays, and what is added is no longer than
    the number of reply frames among the events. *)
Theorem deliveries_bounded_by_replies (codec : ZMQRuntimeCaller.Codec)
  (w : ZMQRuntimeCaller.World) (evs : list ZMQRuntimeCaller.event) :
  exists delivered,
    ZMQRuntimeCaller.processed (ZMQRuntimeCaller.run codec w evs)
    = (ZMQRuntimeCaller.processed w ++ delivered)%list
    /\ (List.length delivered <= List.length (filter is_message evs))%nat.
Proof.
  unfold ZMQRuntimeCaller.run. revert w.
  induction evs as [|ev evs IH]; intros w; cbn [fold_left filter].
  - exists []. rewrite List.app_nil_r. split; [reflexivity|simpl; lia].
  - destruct (IH (ZMQRuntimeCaller.dispatch codec w ev)) as [d2 [E2 L2]].
    destruct (dispatch_delivers codec w ev) as [d1 [E1 L1]].
    exists (d1 ++ d2)%list. split.
    + rewrite E2, E1, <- List.app_assoc. reflexivity.
    + rewrite length_app. destruct (is_message ev); cbn [List.length]; lia.
Qed.

Lemma clear_fresh (h : nat) (ts : list ZMQRuntimeCaller.Timer)
  (t : ZMQRuntimeCaller.Timer) :
  forallb (fun x => negb (Nat.eqb (ZMQRuntimeCaller.timer_handle x) h)) ts = true ->
  ZMQRuntimeCaller.timer_handle t = h ->
  ZMQRuntimeCaller.clearTimeout (Some h) (ts ++ [t]) = ts.
Proof.
  intros H Ht. unfold ZMQRuntimeCaller.clearTimeout.
  rewrite filter_app. cbn [filter]. rewrite Ht, Nat.eqb_refl. cbn [negb].
  rewrite List.app_nil_r.
  induction ts as [|x ts IH]; cbn [filter forallb] in *.
  - reflexivity.
  - apply andb_prop in H. destruct H as [Hx Hts].
    rewrite Hx, (IH Hts). reflexivity.
Qed.

Lemma find_fresh (h : nat) (ts : list ZMQRuntimeCaller.Timer)
  (t : ZMQRuntimeCaller.Timer) :
  forallb (fun x => negb (Nat.eqb (ZMQRuntimeCaller.timer_handle x) h)) ts = true ->
  ZMQRuntimeCaller.timer_handle t = h ->
  find (fun x => Nat.eqb (ZMQRuntimeCaller.timer_handle x) h) (ts ++ [t])
  = Some t.
Proof.
  intros H Ht. induction ts as [|x ts IH]; cbn [List.app find forallb] in *.
  - rewrite Ht, Nat.eqb_refl. reflexivity.
  - apply andb_prop in H. destruct H as [Hx Hts].
    apply negb_true_iff in Hx. rewrite Hx. exact (IH Hts).
Qed.

Lemma call_bound (m : Mappings) (codec : ZMQRuntimeCaller.Codec)
  (w : ZMQRuntimeCaller.World) (action : ZMQRuntimeCaller.Action)
  (service version targetAction address : string) (params files : value)
  (timeout : option Z) :
  ZMQRuntimeCaller.can_bind w address = true ->
  ZMQRuntimeCaller.call m codec w action service version targetAction address
    params files timeout
  = ({| ZMQRuntimeCaller._action := Some action;
        ZMQRuntimeCaller._timeout := Some (ZMQRuntimeCaller.next_handle w);
        ZMQRuntimeCaller.timers :=
          ZMQRuntimeCaller.timers w
          ++ [{| ZMQRuntimeCaller.timer_handle := ZMQRuntimeCaller.next_handle w;
                 ZMQRuntimeCaller.timer_delay :=
                   match timeout with Some t => t | None => 1000%Z end;
                 ZMQRuntimeCaller.timer_socket :=
                   List.length (ZMQRuntimeCaller.sockets w);
                 ZMQRuntimeCaller.timer_service := service;
                 ZMQRuntimeCaller.timer_version := version;
                 ZMQRuntimeCaller.timer_targetAction := targetAction |}];
        ZMQRuntimeCaller.next_handle := S (ZMQRuntimeCaller.next_handle w);
        ZMQRuntimeCaller.sockets :=
          ZMQRuntimeCaller.sockets w
          ++ [{| ZMQRuntimeCaller.socket_type := "rep";
                 ZMQRuntimeCaller.socket_bound := [address];
                 ZMQRuntimeCaller.socket_refd := true;
                 ZMQRuntimeCaller.socket_sent :=
                   [[ZMQRuntimeCaller.control_frame;
                     ZMQRuntimeCaller.FBuffer
                       (ZMQRuntimeCaller.pack codec
                          (ZMQRuntimeCaller.command m action service version
                             targetAction (default_param (VArr []) params)
                             (default_param (VArr []) files)))]] |}];
        ZMQRuntimeCaller.processed := ZMQRuntimeCaller.processed w;
        ZMQRuntimeCaller.uncaught := ZMQRuntimeCaller.uncaught w;
        ZMQRuntimeCaller.handles_uncaught := ZMQRuntimeCaller.handles_uncaught w;
        ZMQRuntimeCaller.alive := ZMQRuntimeCaller.alive w;
        ZMQRuntimeCaller.refuses := ZMQRuntimeCaller.refuses w |},
     Ok tt).
Proof.
  unfold ZMQRuntimeCaller.can_bind, ZMQRuntimeCaller.call.
  destruct (ZMQRuntimeCaller.bind_refusal w address); [discriminate|].
  reflexivity.
Qed.

(** X15. The caller keeps one action and one timer handle, those of its
    latest call: after a call that got its address bound, a reply frame on
    the socket of that call or of an earlier one disarms the timer of the
    latest call only, leaving the earlier timers armed, and is decoded and
    handed to the action of the latest call. *)
Theorem reply_goes_to_latest_call (m : Mappings)
  (codec : ZMQRuntimeCaller.Codec) (w : ZMQRuntimeCaller.World)
  (action : ZMQRuntimeCaller.Action)
  (service version targetAction address : string) (params files : value)
  (timeout : option Z) (sid : nat) (response : list Byte.byte)
  (payload : value) :
  ZMQRuntimeCaller.alive w = true ->
  handle_is_fresh w = true ->
  ZMQRuntimeCaller.can_bind w address = true ->
  ZMQRuntimeCaller.listening
    (fst (ZMQRuntimeCaller.call m codec w action service version targetAction
            address params files timeout)) sid = true ->
  ZMQRuntimeCaller.unpack codec response = Ok payload ->
  let called :=
    ZMQRuntimeCaller.call m codec w action service version targetAction
      address params files timeout in
  let replied :=
    ZMQRuntimeCaller.dispatch codec (fst called)
      (ZMQRuntimeCaller.Message sid response) in
  snd called = Ok tt
  /\ ZMQRuntimeCaller.timers replied = ZMQRuntimeCaller.timers w
  /\ ZMQRuntimeCaller.processed replied
     = (ZMQRuntimeCaller.processed w ++ [(action, payload)])%list
  /\ ZMQRuntimeCaller.uncaught replied = ZMQRuntimeCaller.uncaught w.
Proof.
  intros Ha Hf Hb Hs Hu. cbv zeta. revert Hs.
  rewrite (call_bound m codec w action service version targetAction address
             params files timeout Hb).
  cbn [fst snd]. intros Hs. split; [reflexivity|].
  unfold ZMQRuntimeCaller.dispatch.
  cbn [ZMQRuntimeCaller.alive]. rewrite Hs, Ha. cbn [negb].
  unfold ZMQRuntimeCaller._parseReply.
  cbn [ZMQRuntimeCaller._action ZMQRuntimeCaller._timeout
       ZMQRuntimeCaller.timers ZMQRuntimeCaller.processed
       ZMQRuntimeCaller.uncaught].
  rewrite Hu.
  cbn [ZMQRuntimeCaller.timers ZMQRuntimeCaller.processed
       ZMQRuntimeCaller.uncaught].
  split; [|split; reflexivity].
  apply clear_fresh; [exact Hf | reflexivity].
Qed.

Lemma reply_goes_to_latest_call_witness :
  let first :=
    fst (ZMQRuntimeCaller.call spec_mappings length_codec
           (ZMQRuntimeCaller.boot false) some_action "users" "1.0" "read"
           "ipc://@first" VUndefined VUndefined (Some 50%Z)) in
  let called :=
    ZMQRuntimeCaller.call spec_mappings length_codec first other_action
      "posts" "2.0" "list" "ipc://@second" VUndefined VUndefined None in
  let replied :=
    ZMQRuntimeCaller.dispatch length_codec (fst called)
      (ZMQRuntimeCaller.Message 0 [Byte.x07]) in
  (ZMQRuntimeCaller.alive first = true
   /\ handle_is_fresh first = true
   /\ ZMQRuntimeCaller.can_bind first "ipc://@second" = true
   /\ ZMQRuntimeCaller.listening (fst called) 0 = true
   /\ ZMQRuntimeCaller.unpack length_codec [Byte.x07] = Ok (VNum 1))
  /\ snd called = Ok tt
  /\ ZMQRuntimeCaller.timers replied = ZMQRuntimeCaller.timers first
  /\ ZMQRuntimeCaller.processed replied
     = (ZMQRuntimeCaller.processed first ++ [(other_action, VNum 1)])%list
  /\ ZMQRuntimeCaller.uncaught replied = ZMQRuntimeCaller.uncaught first.
Proof.
  cbv zeta. split.
  - repeat split; reflexivity.
  - apply (reply_goes_to_latest_call spec_mappings length_codec _ other_action
             "posts" "2.0" "list" "ipc://@second" VUndefined VUndefined None 0
             [Byte.x07] (VNum 1)); reflexivity.
Defined.

(** X16. When the timer armed by a call that got its address bound expires,
    on a caller that may have other calls pending, the error thrown names
    the service, version and action of that call; the timers of the other
    calls stay armed, nothing is handed to an action, the sockets stay
    bound, and the process goes on only if the host handles uncaught
    exceptions. *)
Theorem timeout_names_its_call (m : Mappings) (codec : ZMQRuntimeCaller.Codec)
  (w : ZMQRuntimeCaller.World) (action : ZMQRuntimeCaller.Action)
  (service version targetAction address : string) (params files : value)
  (timeout : option Z) :
  ZMQRuntimeCaller.alive w = true ->
  handle_is_fresh w = true ->
  ZMQRuntimeCaller.can_bind w address = true ->
  let called :=
    ZMQRuntimeCaller.call m codec w action service version targetAction
      address params files timeout in
  let expired :=
    ZMQRuntimeCaller.dispatch codec (fst called)
      (ZMQRuntimeCaller.TimerExpired (ZMQRuntimeCaller.next_handle w)) in
  snd called = Ok tt
  /\ ZMQRuntimeCaller.uncaught expired
     = (ZMQRuntimeCaller.uncaught w
        ++ [Error ("Run-time call timed out for " ++ service ++ " (" ++ version
                   ++ ") " ++ dquote ++ targetAction ++ dquote)])%list
  /\ ZMQRuntimeCaller.timers expired = ZMQRuntimeCaller.timers w
  /\ ZMQRuntimeCaller.processed expired = ZMQRuntimeCaller.processed w
  /\ map ZMQRuntimeCaller.socket_bound (ZMQRuntimeCaller.sockets expired)
     = (map ZMQRuntimeCaller.socket_bound (ZMQRuntimeCaller.sockets w)
        ++ [[address]])%list
  /\ ZMQRuntimeCaller.alive expired = ZMQRuntimeCaller.handles_uncaught w.
Proof.
  intros Ha Hf Hb. cbv zeta.
  rewrite (call_bound m codec w action service version targetAction address
             params files timeout Hb).
  cbn [fst snd]. split; [reflexivity|].
  unfold ZMQRuntimeCaller.dispatch.
  cbn [ZMQRuntimeCaller.alive ZMQRuntimeCaller.timers]. rewrite Ha.
  cbn [negb].
  match goal with
  | |- context [find _ (ZMQRuntimeCaller.timers w ++ [?t])%list] =>
      rewrite (find_fresh (ZMQRuntimeCaller.next_handle w)
                 (ZMQRuntimeCaller.timers w) t Hf eq_refl)
  end.
  unfold ZMQRuntimeCaller.on_timeout, ZMQRuntimeCaller.escape.
  cbn [ZMQRuntimeCaller.uncaught ZMQRuntimeCaller.timers
       ZMQRuntimeCaller.processed ZMQRuntimeCaller.sockets
       ZMQRuntimeCaller.alive ZMQRuntimeCaller.handles_uncaught
       ZMQRuntimeCaller.timer_service ZMQRuntimeCaller.timer_socket
       ZMQRuntimeCaller.timer_version ZMQRuntimeCaller.timer_targetAction].
  split; [reflexivity|].
  split; [apply clear_fresh; [exact Hf | reflexivity]|].
  split; [reflexivity|].
  split; [|reflexivity].
  match goal with
  | |- context [ZMQRuntimeCaller.unref ?sid ?ss] =>
      destruct (unref_keeps sid ss) as [Hk _]; rewrite Hk
  end.
  rewrite map_app. reflexivity.
Qed.

Lemma timeout_names_its_call_witness :
  let first :=
    fst (ZMQRuntimeCaller.call spec_mappings length_codec
           (ZMQRuntimeCaller.boot true) some_action "users" "1.0" "read"
           "ipc://@first" VUndefined VUndefined (Some 50%Z)) in
  let called :=
    ZMQRuntimeCaller.call spec_mappings length_codec first other_action
      "posts" "2.0" "list" "ipc://@second" VUndefined VUndefined None in
  let expired :=
    ZMQRuntimeCaller.dispatch length_codec (fst called)
      (ZMQRuntimeCaller.TimerExpired (ZMQRuntimeCaller.next_handle first)) in
  (ZMQRuntimeCaller.alive first = true
   /\ handle_is_fresh first = true
   /\ ZMQRuntimeCaller.can_bind first "ipc://@second" = true)
  /\ snd called = Ok tt
  /\ ZMQRuntimeCaller.uncaught expired
     = (ZMQRuntimeCaller.uncaught first
        ++ [Error ("Run-time call timed out for " ++ "posts" ++ " (" ++ "2.0"
                   ++ ") " ++ dquote ++ "list" ++ dquote)])%list
  /\ ZMQRuntimeCaller.timers expired = ZMQRuntimeCaller.timers first
  /\ ZMQRuntimeCaller.processed expired = ZMQRuntimeCaller.processed first
  /\ map ZMQRuntimeCaller.socket_bound (ZMQRuntimeCaller.sockets expired)
     = (map ZMQRuntimeCaller.socket_bound (ZMQRuntimeCaller.sockets first)
        ++ [["ipc://@second"]])%list
  /\ ZMQRuntimeCaller.alive expired = ZMQRuntimeCaller.handles_uncaught first.
Proof.
  cbv zeta. split.
  - repeat split; reflexivity.
  - apply (timeout_names_its_call spec_mappings length_codec _ other_action
             "posts" "2.0" "list" "ipc://@second" VUndefined VUndefined None);
      reflexivity.
Defined.

Lemma listening_app (w : ZMQRuntimeCaller.World) (sid : nat)
  (ss : list ZMQRuntimeCaller.Socket) :
  ZMQRuntimeCaller.listening w sid = true ->
  match nth_error (ZMQRuntimeCaller.sockets w ++ ss) sid with
  | Some s =>
      match ZMQRuntimeCaller.socket_bound s with
      | [] => false
      | _ :: _ => true
      end
  | None => false
  end = true.
Proof.
  unfold ZMQRuntimeCaller.listening. intros H.
  destruct (nth_error (ZMQRuntimeCaller.sockets w) sid) as [s|] eqn:E;
    [|discriminate H].
  rewrite nth_error_app1.
  - rewrite E. exact H.
  - apply nth_error_Some. rewrite E. discriminate.
Qed.

(** X17. A call whose address the broker does not bind throws the broker's
    error after it has stored its action and made its socket: no timer is
    armed, the caller's timer handle stays the one of the call before, the
    new socket is bound to nothing and has sent nothing.  A reply frame that
    then comes in on a socket of an earlier call is handed to the action of
    the call that threw, and disarms the timer of the call before. *)
Theorem refused_call_keeps_its_action (m : Mappings)
  (codec : ZMQRuntimeCaller.Codec) (w : ZMQRuntimeCaller.World)
  (action : ZMQRuntimeCaller.Action)
  (service version targetAction address : string) (params files : value)
  (timeout : option Z) (sid : nat) (response : list Byte.byte)
  (payload : value) :
  ZMQRuntimeCaller.alive w = true ->
  ZMQRuntimeCaller.can_bind w address = false ->
  ZMQRuntimeCaller.listening w sid = true ->
  ZMQRuntimeCaller.unpack codec response = Ok payload ->
  let called :=
    ZMQRuntimeCaller.call m codec w action service version targetAction
      address params files timeout in
  let replied :=
    ZMQRuntimeCaller.dispatch codec (fst called)
      (ZMQRuntimeCaller.Message sid response) in
  (exists message, snd called = Throw (Error message))
  /\ ZMQRuntimeCaller.timers (fst called) = ZMQRuntimeCaller.timers w
  /\ ZMQRuntimeCaller._timeout (fst called) = ZMQRuntimeCaller._timeout w
  /\ map ZMQRuntimeCaller.socket_bound (ZMQRuntimeCaller.sockets (fst called))
     = (map ZMQRuntimeCaller.socket_bound (ZMQRuntimeCaller.sockets w)
        ++ [[]])%list
  /\ map ZMQRuntimeCaller.socket_sent (ZMQRuntimeCaller.sockets (fst called))
     = (map ZMQRuntimeCaller.socket_sent (ZMQRuntimeCaller.sockets w)
        ++ [[]])%list
  /\ ZMQRuntimeCaller.processed replied
     = (ZMQRuntimeCaller.processed w ++ [(action, payload)])%list
  /\ ZMQRuntimeCaller.timers replied
     = ZMQRuntimeCaller.clearTimeout (ZMQRuntimeCaller._timeout w)
         (ZMQRuntimeCaller.timers w).
Proof.
  intros Ha Hb Hs Hu. cbv zeta.
  unfold ZMQRuntimeCaller.can_bind in Hb. unfold ZMQRuntimeCaller.call.
  destruct (ZMQRuntimeCaller.bind_refusal w address) as [message|];
    [|discriminate Hb].
  cbn [fst snd ZMQRuntimeCaller.timers ZMQRuntimeCaller._timeout
       ZMQRuntimeCaller.sockets].
  split; [exists message; reflexivity|].
  split; [reflexivity|]. split; [reflexivity|].
  split; [rewrite map_app; reflexivity|].
  split; [rewrite map_app; reflexivity|].
  unfold ZMQRuntimeCaller.dispatch, ZMQRuntimeCaller.listening.
  cbn [ZMQRuntimeCaller.alive ZMQRuntimeCaller.sockets].
  rewrite (listening_app w sid _ Hs), Ha. cbn [negb].
  unfold ZMQRuntimeCaller._parseReply.
  cbn [ZMQRuntimeCaller._action ZMQRuntimeCaller._timeout
       ZMQRuntimeCaller.timers ZMQRuntimeCaller.processed].
  rewrite Hu.
  cbn [ZMQRuntimeCaller.timers ZMQRuntimeCaller.processed].
  split; reflexivity.
Qed.

Lemma refused_call_keeps_its_action_witness :
  let first :=
    fst (ZMQRuntimeCaller.call spec_mappings length_codec
           (ZMQRuntimeCaller.boot true) some_action "users" "1.0" "read"
           "ipc://@reply" VUndefined VUndefined (Some 50%Z)) in
  let called :=
    ZMQRuntimeCaller.call spec_mappings length_codec first other_action
      "posts" "2.0" "list" "ipc://@reply" VUndefined VUndefined None in
  let replied :=
    ZMQRuntimeCaller.dispatch length_codec (fst called)
      (ZMQRuntimeCaller.Message 0 [Byte.x07]) in
  (ZMQRuntimeCaller.alive first = true
   /\ ZMQRuntimeCaller.can_bind first "ipc://@reply" = false
   /\ ZMQRuntimeCaller.listening first 0 = true
   /\ ZMQRuntimeCaller.unpack length_codec [Byte.x07] = Ok (VNum 1))
  /\ (exists message, snd called = Throw (Error message))
  /\ ZMQRuntimeCaller.timers (fst called) = ZMQRuntimeCaller.timers first
  /\ ZMQRuntimeCaller._timeout (fst called) = ZMQRuntimeCaller._timeout first
  /\ map ZMQRuntimeCaller.socket_bound (ZMQRuntimeCaller.sockets (fst called))
     = (map ZMQRuntimeCaller.socket_bound (ZMQRuntimeCaller.sockets first)
        ++ [[]])%list
  /\ map ZMQRuntimeCaller.socket_sent (ZMQRuntimeCaller.sockets (fst called))
     = (map ZMQRuntimeCaller.socket_sent (ZMQRuntimeCaller.sockets first)
        ++ [[]])%list
  /\ ZMQRuntimeCaller.processed replied
     = (ZMQRuntimeCaller.processed first ++ [(other_action, VNum 1)])%list
  /\ ZMQRuntimeCaller.timers replied
     = ZMQRuntimeCaller.clearTimeout (ZMQRuntimeCaller._timeout first)
         (ZMQRuntimeCaller.timers first).
Proof.
  cbv zeta. split.
  - repeat split; reflexivity.
  - apply (refused_call_keeps_its_action spec_mappings length_codec _
             other_action "posts" "2.0" "list" "ipc://@reply" VUndefined
             VUndefined None 0 [Byte.x07] (VNum 1)); reflexivity.
Defined.
